(** * ObjectCollection: a list that broadcasts attribute access and calls

    Shallow embedding of [src/__init__.py] (class [ObjectCollection(list)])
    and the properties of its attribute broadcast, call broadcast, filter
    and tree merge.

    Scope of the model.
    - Python values are the closed universe [value] below.  A collection is
      the list of its elements; a receiver carries no instance attributes of
      its own (the class never assigns any).
    - Exceptions are explicit: every operation returns a [result].
    - What belongs to the Python runtime and not to the source file (the
      attribute tables of [list] and of the builtin types, the code of
      callables) is the interface [Host].
    - [__merge_trees] updates its target in place.  The accumulator is passed
      and returned explicitly; mappings are values without object identity,
      so the model describes runs in which the trees handed to the merge do
      not share mapping objects.  The properties of the merge are stated so
      that they also hold when objects are shared: they say what is kept and
      what is found in the result, not what else stays unchanged. *)

From Stdlib Require Import List String Ascii ZArith Bool Arith Lia.
Import ListNotations.
Local Open Scope string_scope.
Local Open Scope list_scope.

Set Warnings "-register-all".

(** ** Exceptions and results *)

Inductive exn : Type :=
| AttributeError
| TypeError
| HostError (code : nat).
    (* any other exception, as raised by the code of the host *)

Inductive result (A : Type) : Type :=
| Ok (a : A)
| Raise (e : exn).

Arguments Ok {A} a.
Arguments Raise {A} e.

Definition bind {A B : Type} (r : result A) (k : A -> result B) : result B :=
  match r with
  | Ok a => k a
  | Raise e => Raise e
  end.

Notation "x <- c ;; k" := (bind c (fun x => k))
  (at level 61, c at next level, right associativity).

(** [[f(x) for x in xs]]: left to right, the first exception escapes. *)
Fixpoint mapM {A B : Type} (f : A -> result B) (xs : list A) : result (list B) :=
  match xs with
  | [] => Ok []
  | x :: rest =>
      y <- f x ;;
      ys <- mapM f rest ;;
      Ok (y :: ys)
  end.

(** [[x for x in xs if f(x)]], the test being a Python truth value. *)
Fixpoint filterM {A : Type} (f : A -> result bool) (xs : list A) : result (list A) :=
  match xs with
  | [] => Ok []
  | x :: rest =>
      b <- f x ;;
      ys <- filterM f rest ;;
      Ok (if b then x :: ys else ys)
  end.

(** [for x in xs: acc = step(acc, x)] with the state passed along. *)
Fixpoint foldM {A S : Type} (step : S -> A -> result S) (acc : S) (xs : list A)
  : result S :=
  match xs with
  | [] => Ok acc
  | x :: rest =>
      acc' <- step acc x ;;
      foldM step acc' rest
  end.

(** ** Values *)

Inductive value : Type :=
| VNone
| VBool (b : bool)
| VInt (z : Z)
| VStr (s : string)
| VDict (items : list (string * value))
    (* a dict with string keys, in insertion order *)
| VObj (attrs : list (string * result value)) (code : option nat)
    (* an object: what reading each of its attributes gives (a value, or the
       exception that a property raises), and its code when callable *)
| VColl (elems : list value)
    (* an ObjectCollection *)
| VBound (name : string) (self : list value).
    (* what normal lookup of [name] finds on the collection [self] *)

(** Arguments of a call: [*args, **kwargs]. *)
Record args : Type := mkArgs {
  positional : list value;
  keywords : list (string * value)
}.

Definition no_args : args := mkArgs [] [].

(** Python truth value ([if obj], [not other]). *)
Definition truthy (v : value) : bool :=
  match v with
  | VNone => false
  | VBool b => b
  | VInt z => negb (Z.eqb z 0)
  | VStr s => negb (String.eqb s "")
  | VDict items => negb (Nat.eqb (List.length items) 0)
  | VObj _ _ => true
  | VColl elems => negb (Nat.eqb (List.length elems) 0)
  | VBound _ _ => true
  end.

(** The builtin types without attributes of their own in the model. *)
Definition is_scalar (v : value) : bool :=
  match v with
  | VNone | VBool _ | VInt _ | VStr _ => true
  | _ => false
  end.

(** ** Association lists (attribute tables and dicts) *)

Fixpoint assoc {A : Type} (k : string) (kvs : list (string * A)) : option A :=
  match kvs with
  | [] => None
  | (k', v) :: rest => if String.eqb k k' then Some v else assoc k rest
  end.

(** [d[k] = v] for a key that is present: the entry keeps its place. *)
Fixpoint assoc_set {A : Type} (k : string) (v : A) (kvs : list (string * A))
  : list (string * A) :=
  match kvs with
  | [] => []
  | (k', v') :: rest =>
      if String.eqb k k' then (k', v) :: rest else (k', v') :: assoc_set k v rest
  end.

Definition keys {A : Type} (kvs : list (string * A)) : list string :=
  map fst kvs.

(** ** Names *)

Definition startswith (s pre : string) : bool := String.prefix pre s.

Definition endswith (s suf : string) : bool :=
  let n := String.length s in
  let m := String.length suf in
  (m <=? n)%nat && String.eqb (String.substring (n - m) m s) suf.

(** [name.startswith('__') and name.endswith('__')] *)
Definition is_dunder (name : string) : bool :=
  startswith name "__" && endswith name "__".

(** The names bound in the body of [class ObjectCollection]; the static
    method [__merge_trees] is stored under its mangled name. *)
Definition class_names : list string :=
  [ "__init__"; "__getattr__"; "__call__"; "filter"; "apply";
    "_ObjectCollection__merge_trees"; "collection_tree" ].

Definition mem (name : string) (names : list string) : bool :=
  existsb (String.eqb name) names.

(** The methods of the base class [list]. *)
Definition list_api : list string :=
  [ "append"; "count"; "extend"; "index"; "insert"; "pop"; "remove";
    "reverse"; "sort" ].

(** ** The host runtime *)

Class Host : Type := {
  (** names that normal lookup finds on the bases [list] and [object] *)
  base_defined : string -> bool;
  (** attribute lookup on builtin values and bound methods *)
  builtin_attr : value -> string -> option value;
  (** running the code of a callable object: the code, the object that is
      called, the arguments *)
  host_call : nat -> value -> args -> result value;
  (** calling an attribute found by normal lookup on a collection *)
  bound_call : string -> list value -> args -> result value;
  (** the merge loop of [__merge_trees target other] over [m()], for the
      [items] attribute [m] of an [other] that is not a dict *)
  merge_duck : value -> value -> value -> result value;
  (** [list] has no attribute [tree] *)
  base_no_tree : base_defined "tree" = false;
  (** [None], booleans, integers and strings have no attribute [items] *)
  scalar_no_items : forall v, is_scalar v = true -> builtin_attr v "items" = None
}.

Section Collection.

Context {H : Host}.

(** Normal attribute lookup on a collection succeeds for these names, and
    [__getattr__] is not consulted. *)
Definition defined (name : string) : bool :=
  mem name class_names || base_defined name.

(** [ObjectCollection(object_list)] *)
Definition ObjectCollection (object_list : list value) : value :=
  VColl object_list.

(** [getattr(obj, name, default)] given the outcome of the lookup: the
    default replaces AttributeError and nothing else. *)
Definition or_default (found : result value) (default : value) : result value :=
  match found with
  | Ok v => Ok v
  | Raise AttributeError => Ok default
  | Raise e => Raise e
  end.

(** The outcome of a lookup in an attribute table. *)
Definition slot_or_missing (slot : option (result value)) : result value :=
  match slot with
  | Some outcome => outcome
  | None => Raise AttributeError
  end.

Definition found_or_missing (found : option value) : result value :=
  match found with
  | Some v => Ok v
  | None => Raise AttributeError
  end.

(** [ObjectCollection.__getattr__], over the lookup [ga] on elements. *)
Definition getattr_with (ga : value -> string -> result value)
  (self : list value) (name : string) : result value :=
  if is_dunder name
  then Raise AttributeError
  else
    rs <- mapM (fun obj => or_default (ga obj name) (VBool false)) self ;;
    Ok (ObjectCollection rs).

(** [self.name]: normal lookup, then [__getattr__]. *)
Definition getattribute_with (ga : value -> string -> result value)
  (self : list value) (name : string) : result value :=
  if defined name
  then Ok (VBound name self)
  else getattr_with ga self name.

(** The attribute access [obj.name] on a value: the value it gives or the
    exception it raises, AttributeError when there is no such attribute. *)
Fixpoint getattr_value (obj : value) (name : string) {struct obj} : result value :=
  match obj with
  | VObj attrs _ => slot_or_missing (assoc name attrs)
  | VColl elems => getattribute_with getattr_value elems name
  | _ => found_or_missing (builtin_attr obj name)
  end.

(** What [getattr(obj, name, False)] gives when the lookup returns or
    raises AttributeError. *)
Definition found_or_false (found : result value) : value :=
  match found with
  | Ok v => v
  | Raise _ => VBool false
  end.

(** [getattr(obj, name, False)] *)
Definition getattr_false (name : string) (obj : value) : result value :=
  or_default (getattr_value obj name) (VBool false).

Definition __getattr__ (self : list value) (name : string) : result value :=
  getattr_with getattr_value self name.

Definition getattribute (self : list value) (name : string) : result value :=
  getattribute_with getattr_value self name.

(** The expression [v.name] for any value. *)
Definition attr_access (v : value) (name : string) : result value :=
  getattr_value v name.

(** [ObjectCollection.__call__], over the call [cv] of elements. *)
Definition call_with (cv : value -> args -> result value)
  (self : list value) (a : args) : result value :=
  rs <- mapM (fun obj => if truthy obj then cv obj a else Ok VNone) self ;;
  Ok (ObjectCollection rs).

(** Calling a value with the arguments [a]; what is not callable raises
    TypeError. *)
Fixpoint call_value (obj : value) (a : args) {struct obj} : result value :=
  match obj with
  | VObj _ (Some c) => host_call c obj a
  | VColl elems => call_with call_value elems a
  | VBound name self => bound_call name self a
  | _ => Raise TypeError
  end.

Definition __call__ (self : list value) (a : args) : result value :=
  call_with call_value self a.

(** [obj( *args, **kwargs) if obj else None], one element of [__call__]. *)
Definition call_or_none (a : args) (obj : value) : result value :=
  if truthy obj then call_value obj a else Ok VNone.

(** [ObjectCollection.filter] *)
Definition filter (self : list value) (filter_function : value -> result value)
  : result value :=
  kept <- filterM (fun obj => r <- filter_function obj ;; Ok (truthy r)) self ;;
  Ok (ObjectCollection kept).

(** [ObjectCollection.apply] *)
Definition apply (self : list value) (function : value -> result value)
  : result value :=
  rs <- mapM function self ;;
  Ok (ObjectCollection rs).

(** ** Tree merge *)

(** One turn of the loop of [__merge_trees]: [key not in target], then
    [target[key] = value] or the recursive call [again] on [target[key]].
    A target that is not a dict supports none of these with a string key. *)
Definition merge_entry (again : value -> result value)
  (target : value) (key : string) (v : value) : result value :=
  match target with
  | VDict t =>
      match assoc key t with
      | None => Ok (VDict (t ++ [(key, v)]))
      | Some sub =>
          sub' <- again sub ;;
          Ok (VDict (assoc_set key sub' t))
      end
  | _ => Raise TypeError
  end.

(** [ObjectCollection.__merge_trees(target, other)]; the result is the
    target after the call. *)
Fixpoint merge_trees (target other : value) {struct other} : result value :=
  if negb (truthy other)
  then Ok target
  else
    match other with
    | VDict items =>
        foldM (fun tgt kv =>
                 merge_entry (fun sub => merge_trees sub (snd kv)) tgt (fst kv) (snd kv))
              target items
    | _ =>
        m <- getattr_value other "items" ;;
        merge_duck target other m
    end.

(** The loop of [__merge_trees] over the entries of a dict. *)
Definition merge_items (target : value) (items : list (string * value))
  : result value :=
  foldM (fun tgt kv =>
           merge_entry (fun sub => merge_trees sub (snd kv)) tgt (fst kv) (snd kv))
        target items.

(** [for x in v] *)
Definition iter_value (v : value) : result (list value) :=
  match v with
  | VColl elems => Ok elems
  | VDict items => Ok (map VStr (keys items))
  | VStr s => Ok (map (fun c => VStr (String c EmptyString)) (list_ascii_of_string s))
  | _ => Raise TypeError
  end.

(** [ObjectCollection.collection_tree] *)
Definition collection_tree (self : list value) : result value :=
  tree_attr <- getattribute self "tree" ;;
  trees <- call_value tree_attr no_args ;;
  tree_list <- iter_value trees ;;
  foldM merge_trees (VDict []) tree_list.

(** What [collection_tree] merges for the element [obj]: the element's
    entry in [self.tree()]. *)
Definition tree_of (obj : value) : result value :=
  m <- getattr_false "tree" obj ;;
  if truthy m then call_value m no_args else Ok VNone.

(** The chained access [self.b.c]. *)
Definition chain (self : list value) (b c : string) : result value :=
  x <- getattribute self b ;;
  attr_access x c.

(** A function that always returns, as an argument of [filter] or [apply]. *)
Definition total (f : value -> value) : value -> result value :=
  fun x => Ok (f x).

(** [lambda x: p(x) and q(x)] *)
Definition both (p q : value -> result value) : value -> result value :=
  fun x => r <- p x ;; if truthy r then q x else Ok r.

(** The test that [filter] makes of an element, when it returns. *)
Definition passes (p : value -> result value) (obj : value) : bool :=
  match p obj with
  | Ok r => truthy r
  | Raise _ => false
  end.

(** The method call [self.name(...)] with the arguments [a]: the attribute
    access, then the call of what it returns. *)
Definition method_call (self : list value) (name : string) (a : args)
  : result value :=
  m <- getattribute self name ;;
  call_value m a.

(** The values that Python cannot call: [None], booleans, numbers, strings,
    dicts and objects without code. *)
Definition not_callable (v : value) : bool :=
  match v with
  | VNone | VBool _ | VInt _ | VStr _ | VDict _ | VObj _ None => true
  | _ => false
  end.

(** A tree in the sense of [collection_tree]: nested dicts whose leaves are
    [None], booleans, numbers or strings. *)
Fixpoint is_tree (v : value) : bool :=
  match v with
  | VNone | VBool _ | VInt _ | VStr _ => true
  | VDict items => forallb (fun kv => is_tree (snd kv)) items
  | _ => false
  end.

(** A tree all of whose leaves are falsy ([None], [False], 0, the empty
    string, the empty dict). *)
Fixpoint falsy_leaves (v : value) : bool :=
  match v with
  | VDict items => forallb (fun kv => falsy_leaves (snd kv)) items
  | VNone | VBool _ | VInt _ | VStr _ => negb (truthy v)
  | _ => false
  end.

Fixpoint distinct (names : list string) : bool :=
  match names with
  | [] => true
  | name :: rest => negb (mem name rest) && distinct rest
  end.

(** Every dict in the value has each key once, as a Python dict does. *)
Fixpoint distinct_keys (v : value) : bool :=
  match v with
  | VDict items =>
      distinct (keys items) && forallb (fun kv => distinct_keys (snd kv)) items
  | _ => true
  end.



(** A measure for induction over nested values. *)
Fixpoint depth (v : value) : nat :=
  match v with
  | VDict items => S (fold_right (fun kv n => Nat.max (depth (snd kv)) n) 0 items)
  | _ => 0
  end.

End Collection.

(** [subseq xs ys]: [xs] is [ys] with some elements left out, the others in
    their order. *)
Inductive subseq {A : Type} : list A -> list A -> Prop :=
| subseq_nil : subseq [] []
| subseq_skip x xs ys : subseq xs ys -> subseq xs (x :: ys)
| subseq_keep x xs ys : subseq xs ys -> subseq (x :: xs) (x :: ys).

(** ** A host for concrete runs

    [DemoHost] fixes the runtime tables far enough to run the examples: the
    names that normal lookup finds on an instance of a subclass of [list],
    the attributes of the builtin values that are not of the form [__x__],
    and a few callables.  Strings are taken as ASCII text. *)

Module Demo.

Definition base_names : list string :=
  list_api ++
  [ "clear"; "copy";
    "__add__"; "__class__"; "__contains__"; "__delattr__"; "__delitem__";
    "__class_getitem__"; "__dict__"; "__dir__"; "__doc__"; "__eq__";
    "__format__"; "__ge__"; "__getattribute__"; "__getitem__";
    "__getstate__"; "__gt__"; "__hash__"; "__iadd__"; "__imul__";
    "__init_subclass__"; "__iter__"; "__le__"; "__len__"; "__lt__";
    "__module__"; "__mul__"; "__ne__"; "__new__"; "__reduce__";
    "__reduce_ex__"; "__repr__"; "__reversed__"; "__rmul__"; "__setattr__";
    "__setitem__"; "__sizeof__"; "__str__"; "__subclasshook__";
    "__weakref__" ].

(** The code of the methods of builtin values. *)
Definition builtin_code : nat := 1000.

(** The method [name] of the builtin value [self], as a callable object. *)
Definition method (name : string) (self : value) : value :=
  VObj [("__self__", Ok self); ("__name__", Ok (VStr name))] (Some builtin_code).

Definition int_methods : list string :=
  [ "as_integer_ratio"; "bit_count"; "bit_length"; "conjugate";
    "from_bytes"; "is_integer"; "to_bytes" ].

Definition str_methods : list string :=
  [ "capitalize"; "casefold"; "center"; "count"; "encode"; "endswith";
    "expandtabs"; "find"; "format"; "format_map"; "index"; "isalnum";
    "isalpha"; "isascii"; "isdecimal"; "isdigit"; "isidentifier";
    "islower"; "isnumeric"; "isprintable"; "isspace"; "istitle"; "isupper";
    "join"; "ljust"; "lower"; "lstrip"; "maketrans"; "partition";
    "removeprefix"; "removesuffix"; "replace"; "rfind"; "rindex"; "rjust";
    "rpartition"; "rsplit"; "rstrip"; "split"; "splitlines"; "startswith";
    "strip"; "swapcase"; "title"; "translate"; "upper"; "zfill" ].

Definition dict_methods : list string :=
  [ "clear"; "copy"; "fromkeys"; "get"; "items"; "keys"; "pop"; "popitem";
    "setdefault"; "update"; "values" ].

(** [z.real], [z.imag], [z.numerator], [z.denominator] of an integer, and
    its methods. *)
Definition int_attr (self : value) (z : Z) (name : string) : option value :=
  if String.eqb name "real" then Some (VInt z)
  else if String.eqb name "imag" then Some (VInt 0)
  else if String.eqb name "numerator" then Some (VInt z)
  else if String.eqb name "denominator" then Some (VInt 1)
  else if mem name int_methods then Some (method name self)
  else None.

Definition attr (v : value) (name : string) : option value :=
  match v with
  | VBool b => int_attr v (if b then 1 else 0) name
  | VInt z => int_attr v z name
  | VStr _ => if mem name str_methods then Some (method name v) else None
  | VDict _ => if mem name dict_methods then Some (method name v) else None
  | _ => None
  end.

Definition upper_char (c : ascii) : ascii :=
  let n := nat_of_ascii c in
  if (97 <=? n)%nat && (n <=? 122)%nat then ascii_of_nat (n - 32) else c.

Definition lower_char (c : ascii) : ascii :=
  let n := nat_of_ascii c in
  if (65 <=? n)%nat && (n <=? 90)%nat then ascii_of_nat (n + 32) else c.

Fixpoint map_chars (f : ascii -> ascii) (s : string) : string :=
  match s with
  | EmptyString => EmptyString
  | String c rest => String (f c) (map_chars f rest)
  end.

(** [s.capitalize()] *)
Definition capitalize (s : string) : string :=
  match s with
  | EmptyString => EmptyString
  | String c rest => String (upper_char c) (map_chars lower_char rest)
  end.

(** The methods of builtin values that the examples call; the others are
    not run here and end in [HostError]. *)
Definition call_method (callee : value) (a : args) : result value :=
  match callee with
  | VObj [("__self__", Ok self); ("__name__", Ok (VStr name))] _ =>
      match self, positional a, keywords a with
      | VStr s, [], [] =>
          if String.eqb name "capitalize" then Ok (VStr (capitalize s))
          else if String.eqb name "upper" then Ok (VStr (map_chars upper_char s))
          else if String.eqb name "lower" then Ok (VStr (map_chars lower_char s))
          else Raise (HostError builtin_code)
      | VInt z, [], [] =>
          if String.eqb name "conjugate" then Ok (VInt z)
          else Raise (HostError builtin_code)
      | _, _, _ => Raise (HostError builtin_code)
      end
  | _ => Raise (HostError builtin_code)
  end.

(** The callables of the examples; each returns its constant. *)
Definition code : list value :=
  [ VDict [("a", VDict [("b", VInt 1)])];
    VDict [("a", VDict [("c", VInt 2)])];
    VDict [("a", VInt 1)];
    VDict [("a", VInt 2)];
    VDict [("a", VInt 0)];
    VStr "Cheeze" ].

Definition call_table (table : list value) (c : nat) (callee : value) (a : args)
  : result value :=
  if Nat.eqb c builtin_code
  then call_method callee a
  else
    match nth_error table c with
    | Some v => Ok v
    | None => Raise (HostError c)
    end.

Definition call (c : nat) (callee : value) (a : args) : result value :=
  call_table code c callee a.

(** A function object running [code] entry [c]. *)
Definition fn (c : nat) : value := VObj [] (Some c).

(** An object whose method [tree] runs [code] entry [c]. *)
Definition with_tree (c : nat) : value := VObj [("tree", Ok (fn c))] None.

(** An object with the data attributes [attrs]. *)
Definition data (attrs : list (string * value)) : value :=
  VObj (map (fun kv => (fst kv, Ok (snd kv))) attrs) None.

(** An object with a property [name] whose getter raises [e]. *)
Definition with_property (name : string) (e : exn) : value :=
  VObj [(name, Raise e)] None.

(** The collection of the class docstring, reduced to three objects. *)
Definition cows : list value :=
  [ data [("a", VStr "good"); ("b", VStr "cow"); ("c", VInt 1)];
    data [("a", VStr "bad"); ("c", VInt 3)];
    data [("a", VStr "ugly"); ("b", VStr "supercows"); ("c", VInt 6)] ].

(** A callable, the sentinel left by a missing attribute, a callable. *)
Definition callables : list value := [fn 5; VBool false; fn 2].

(** Elements with a nested attribute [b.c], and one without [b]. *)
Definition nested : list value :=
  [ data [("b", data [("c", VInt 7)])];
    data [];
    data [("b", data [])] ].

End Demo.

#[export] Instance DemoHost : Host.
Proof.
  refine {| base_defined := fun name => mem name Demo.base_names;
            builtin_attr := Demo.attr;
            host_call := Demo.call;
            bound_call := fun _ _ _ => Raise (HostError 0);
            merge_duck := fun _ _ _ => Raise (HostError 0) |}.
  - reflexivity.
  - intros v Hv. destruct v; simpl in *; try discriminate; reflexivity.
Defined.

(** The host of [DemoHost] with another table of callables: the callable
    with code [c] returns entry [c] of [table]. *)
Definition table_host (table : list value) : Host.
Proof.
  refine {| base_defined := fun name => mem name Demo.base_names;
            builtin_attr := Demo.attr;
            host_call := Demo.call_table table;
            bound_call := fun _ _ _ => Raise (HostError 0);
            merge_duck := fun _ _ _ => Raise (HostError 0) |}.
  - reflexivity.
  - intros v Hv. destruct v; simpl in *; try discriminate; reflexivity.
Defined.

(** * Properties *)

Section Properties.

Context {H : Host}.

(** ** The result monad and the list loops *)

Lemma mapM_length {A B : Type} (f : A -> result B) (xs : list A) (ys : list B) :
  mapM f xs = Ok ys -> List.length ys = List.length xs.
Proof.
  revert ys. induction xs as [|x rest IH]; intros ys; simpl.
  - intros [= <-]. reflexivity.
  - destruct (f x) as [y|e]; simpl; [|discriminate].
    destruct (mapM f rest) as [ys'|e]; simpl; [|discriminate].
    intros [= <-]. simpl. f_equal. now apply IH.
Qed.

Lemma mapM_nth {A B : Type} (f : A -> result B) (xs : list A) (ys : list B) :
  mapM f xs = Ok ys ->
  forall i x, nth_error xs i = Some x ->
  exists y, nth_error ys i = Some y /\ f x = Ok y.
Proof.
  revert ys. induction xs as [|x0 rest IH]; intros ys; simpl.
  - intros _ [|i] x; discriminate.
  - destruct (f x0) as [y0|e] eqn:E0; simpl; [|discriminate].
    destruct (mapM f rest) as [ys'|e]; simpl; [|discriminate].
    intros [= <-] [|i] x; simpl.
    + intros [= <-]. now exists y0.
    + intros Hx. now apply (IH ys' eq_refl i x).
Qed.

Lemma mapM_total {A B : Type} (f : A -> result B) (xs : list A) :
  (forall x, In x xs -> exists y, f x = Ok y) ->
  exists ys, mapM f xs = Ok ys.
Proof.
  induction xs as [|x rest IH]; intros Hf; simpl.
  - now exists [].
  - destruct (Hf x (or_introl eq_refl)) as [y ->]. simpl.
    destruct IH as [ys ->]; [intros z Hz; apply Hf; now right|].
    simpl. now exists (y :: ys).
Qed.

Lemma mapM_map {A B C : Type} (f : B -> result C) (g : A -> B) (xs : list A) :
  mapM f (map g xs) = mapM (fun x => f (g x)) xs.
Proof.
  induction xs as [|x rest IH]; simpl; [reflexivity|]. now rewrite IH.
Qed.

Lemma mapM_pure {A B : Type} (g : A -> B) (xs : list A) :
  mapM (fun x => Ok (g x)) xs = Ok (map g xs).
Proof.
  induction xs as [|x rest IH]; simpl; [reflexivity|]. now rewrite IH.
Qed.

Lemma mapM_raise {A B : Type} (f : A -> result B) (pre post : list A) (x : A)
  (e : exn) :
  (forall z, In z pre -> exists y, f z = Ok y) ->
  f x = Raise e ->
  mapM f (pre ++ x :: post) = Raise e.
Proof.
  intros Hpre Hx. induction pre as [|z pre IH]; simpl.
  - now rewrite Hx.
  - destruct (Hpre z (or_introl eq_refl)) as [y ->]. simpl.
    rewrite IH by (intros w Hw; apply Hpre; now right). reflexivity.
Qed.

Lemma mapM_app {A B : Type} (f : A -> result B) (xs ys : list A) :
  mapM f (xs ++ ys) =
  (a <- mapM f xs ;; b <- mapM f ys ;; Ok (a ++ b)).
Proof.
  induction xs as [|x rest IH]; simpl.
  - destruct (mapM f ys); reflexivity.
  - destruct (f x) as [y|e]; simpl; [|reflexivity].
    rewrite IH. destruct (mapM f rest) as [a|e]; simpl; [|reflexivity].
    destruct (mapM f ys); reflexivity.
Qed.

(** An element on which [f] returns takes no part in which exception the
    loop ends with. *)
Lemma mapM_insert {A B : Type} (f : A -> result B) (pre post : list A)
  (x : A) (y : B) :
  f x = Ok y ->
  mapM f (pre ++ x :: post) =
  (a <- mapM f pre ;; b <- mapM f post ;; Ok (a ++ y :: b)).
Proof.
  intros Hx. rewrite mapM_app. simpl. rewrite Hx. simpl.
  destruct (mapM f pre) as [a|e]; simpl; [|reflexivity].
  destruct (mapM f post) as [b|e]; reflexivity.
Qed.

Lemma mapM_raised {A B : Type} (f : A -> result B) (xs : list A) (e : exn) :
  mapM f xs = Raise e -> exists x, In x xs /\ f x = Raise e.
Proof.
  induction xs as [|x rest IH]; simpl; [discriminate|].
  destruct (f x) as [y|e'] eqn:Ex; simpl.
  - destruct (mapM f rest) as [ys|e']; simpl; [discriminate|].
    intros [= ->]. destruct (IH eq_refl) as [z [Hz Hfz]].
    exists z. split; [now right|exact Hfz].
  - intros [= ->]. exists x. split; [now left|exact Ex].
Qed.

Lemma foldM_app {A S : Type} (step : S -> A -> result S) (acc : S) (xs ys : list A) :
  foldM step acc (xs ++ ys) =
  (acc' <- foldM step acc xs ;; foldM step acc' ys).
Proof.
  revert acc. induction xs as [|x rest IH]; intros acc; simpl; [reflexivity|].
  destruct (step acc x) as [acc'|e]; simpl; [apply IH|reflexivity].
Qed.

(** ** Attribute lookup *)

Lemma getattr_value_coll (elems : list value) (name : string) :
  getattr_value (VColl elems) name = getattribute elems name.
Proof. reflexivity. Qed.

Lemma getattribute_undefined (self : list value) (name : string) :
  defined name = false -> getattribute self name = __getattr__ self name.
Proof.
  intros Hd. unfold getattribute, getattribute_with. now rewrite Hd.
Qed.

Lemma getattr_plain (self : list value) (name : string) :
  is_dunder name = false ->
  __getattr__ self name =
  (rs <- mapM (getattr_false name) self ;; Ok (VColl rs)).
Proof.
  intros Hn. unfold __getattr__, getattr_with. now rewrite Hn.
Qed.

Lemma getattribute_plain (self : list value) (name : string) :
  is_dunder name = false -> defined name = false ->
  getattribute self name =
  (rs <- mapM (getattr_false name) self ;; Ok (VColl rs)).
Proof.
  intros Hn Hd.
  now rewrite (getattribute_undefined self name Hd), (getattr_plain self name Hn).
Qed.

Lemma getattr_false_quiet (name : string) (obj : value) :
  (forall e, getattr_value obj name = Raise e -> e = AttributeError) ->
  getattr_false name obj = Ok (found_or_false (getattr_value obj name)).
Proof.
  intros Hq. unfold getattr_false, or_default.
  destruct (getattr_value obj name) as [v|e]; [reflexivity|].
  now rewrite (Hq e eq_refl).
Qed.

Lemma getattr_false_not_attribute_error (name : string) (obj : value) :
  getattr_false name obj <> Raise AttributeError.
Proof.
  unfold getattr_false, or_default.
  destruct (getattr_value obj name) as [v|[| |c]]; discriminate.
Qed.

Lemma getattr_false_raise (name : string) (obj : value) (e : exn) :
  getattr_false name obj = Raise e -> getattr_value obj name = Raise e.
Proof.
  unfold getattr_false, or_default.
  destruct (getattr_value obj name) as [v|[| |c]]; try discriminate; trivial.
Qed.

(** ** Attribute broadcast *)

(** C1, as the code has it.  For a name that is not of the form [__x__] and
    is not found by normal lookup on the collection, and elements whose
    lookup of the name returns or raises AttributeError, the access returns
    a new ObjectCollection of the same length whose position [i] holds
    element [i]'s value for the attribute when the element has it, and
    [False] otherwise, in the order of the elements. *)
Theorem getattr_broadcast (self : list value) (name : string) :
  is_dunder name = false ->
  defined name = false ->
  (forall obj, In obj self ->
     forall e, getattr_value obj name = Raise e -> e = AttributeError) ->
  exists r,
    getattribute self name = Ok (VColl r) /\
    List.length r = List.length self /\
    forall i obj, nth_error self i = Some obj ->
      nth_error r i =
        Some (match getattr_value obj name with
              | Ok v => v
              | Raise _ => VBool false
              end).
Proof.
  intros Hn Hd Hq. rewrite (getattribute_plain self name Hn Hd).
  destruct (mapM_total (getattr_false name) self) as [r Hr].
  { intros obj Hin. eexists. exact (getattr_false_quiet name obj (Hq obj Hin)). }
  exists r. rewrite Hr. split; [reflexivity|].
  split; [exact (mapM_length _ _ _ Hr)|].
  intros i obj Hi. destruct (mapM_nth _ _ _ Hr i obj Hi) as [ri [Hri Hf]].
  rewrite Hri. f_equal.
  rewrite (getattr_false_quiet name obj (Hq obj (nth_error_In _ _ Hi))) in Hf.
  now injection Hf as <-.
Qed.

(** C6.  A name of the form [__x__] that normal lookup does not find raises
    AttributeError; nothing is broadcast. *)
Theorem dunder_raises (self : list value) (name : string) :
  is_dunder name = true ->
  defined name = false ->
  getattribute self name = Raise AttributeError.
Proof.
  intros Hn Hd. rewrite (getattribute_undefined self name Hd).
  unfold __getattr__, getattr_with. now rewrite Hn.
Qed.

(** ** Filtering *)

Lemma filterM_total {A : Type} (t : A -> bool) (xs : list A) :
  filterM (fun x => Ok (t x)) xs = Ok (List.filter t xs).
Proof.
  induction xs as [|x rest IH]; simpl; [reflexivity|].
  rewrite IH. simpl. reflexivity.
Qed.

Lemma filter_total (self : list value) (p : value -> value) :
  filter self (total p) =
  Ok (VColl (List.filter (fun obj => truthy (p obj)) self)).
Proof.
  unfold filter, total. simpl.
  rewrite (filterM_total (fun obj => truthy (p obj))). reflexivity.
Qed.

Lemma filter_subseq {A : Type} (t : A -> bool) (xs : list A) :
  subseq (List.filter t xs) xs.
Proof.
  induction xs as [|x rest IH]; simpl.
  - constructor.
  - destruct (t x); now constructor.
Qed.

Lemma filter_returns (self : list value) (p : value -> result value) :
  (forall obj, In obj self -> exists v, p obj = Ok v) ->
  filter self p = Ok (VColl (List.filter (passes p) self)).
Proof.
  intros Hret. unfold filter.
  assert (E : filterM (fun obj => r <- p obj ;; Ok (truthy r)) self =
              Ok (List.filter (passes p) self)).
  { induction self as [|x rest IH]; simpl; [reflexivity|].
    unfold passes at 1.
    destruct (Hret x (or_introl eq_refl)) as [v ->]. simpl.
    rewrite IH by (intros y Hy; apply Hret; now right). reflexivity. }
  now rewrite E.
Qed.

Lemma filter_then_filter (self : list value) (p q : value -> result value) :
  (forall obj, In obj self -> exists v, p obj = Ok v) ->
  filter (List.filter (passes p) self) q = filter self (both p q).
Proof.
  intros Hret. unfold filter.
  assert (E : filterM (fun obj => r <- q obj ;; Ok (truthy r))
                      (List.filter (passes p) self) =
              filterM (fun obj => r <- both p q obj ;; Ok (truthy r)) self).
  { induction self as [|x rest IH]; simpl; [reflexivity|].
    specialize (IH (fun y Hy => Hret y (or_intror Hy))).
    unfold passes at 1, both at 1.
    destruct (Hret x (or_introl eq_refl)) as [v ->]. simpl.
    destruct (truthy v) eqn:Ev; simpl.
    - rewrite IH. reflexivity.
    - rewrite Ev, IH. simpl.
      destruct (filterM (fun obj => r <- both p q obj ;; Ok (truthy r)) rest);
        reflexivity. }
  now rewrite E.
Qed.

(** C7, as the code has it.  For a test [p] that returns on every element,
    [filter(p)] returns a new ObjectCollection with exactly the elements
    whose test is truthy, in their original relative order; the receiver
    [self] is a value and stays what it was.  Filtering the result by any
    [q] is then filtering [self] once by [lambda x: p(x) and q(x)], with the
    same exception when [q] raises. *)
Theorem filter_exact_and_composes
  (self : list value) (p q : value -> result value) :
  (forall obj, In obj self -> exists v, p obj = Ok v) ->
  exists kept,
    filter self p = Ok (VColl kept) /\
    kept = List.filter (passes p) self /\
    (forall obj, In obj kept <->
       In obj self /\ exists v, p obj = Ok v /\ truthy v = true) /\
    subseq kept self /\
    filter kept q = filter self (both p q).
Proof.
  intros Hret. exists (List.filter (passes p) self).
  split; [now apply filter_returns|]. split; [reflexivity|].
  split; [|split; [apply filter_subseq|now apply filter_then_filter]].
  intros obj. rewrite filter_In. unfold passes. split.
  - intros [Hin Hp]. split; [exact Hin|].
    destruct (p obj) as [v|e]; [|discriminate]. now exists v.
  - intros [Hin [v [Hv Ht]]]. split; [exact Hin|]. now rewrite Hv.
Qed.

(** ** Call broadcast *)

Lemma call_unfold (self : list value) (a : args) :
  __call__ self a =
  (rs <- mapM (fun obj => if truthy obj then call_value obj a else Ok VNone) self ;;
   Ok (VColl rs)).
Proof. reflexivity. Qed.

(** The first call that raises ends the broadcast with its exception. *)
Lemma call_propagates (pre post : list value) (obj : value) (a : args) (e : exn) :
  (forall o, In o pre -> truthy o = true -> exists v, call_value o a = Ok v) ->
  truthy obj = true ->
  call_value obj a = Raise e ->
  __call__ (pre ++ obj :: post) a = Raise e.
Proof.
  intros Hpre Ht He. rewrite call_unfold.
  rewrite (mapM_raise _ pre post obj e); [reflexivity| |now rewrite Ht].
  intros o Ho. destruct (truthy o) eqn:Eo; [now apply Hpre|now exists VNone].
Qed.

(** C5, as the code has it.  When calling each truthy element with the
    arguments returns, calling the collection returns a new ObjectCollection
    of the same length whose position [i] holds the result of calling
    element [i] if the element is truthy and [None] if it is falsy. *)
Theorem call_broadcast (self : list value) (a : args) :
  (forall obj, In obj self -> truthy obj = true ->
     exists v, call_value obj a = Ok v) ->
  exists r,
    __call__ self a = Ok (VColl r) /\
    List.length r = List.length self /\
    forall i obj, nth_error self i = Some obj ->
      exists ri,
        nth_error r i = Some ri /\
        (truthy obj = true -> call_value obj a = Ok ri) /\
        (truthy obj = false -> ri = VNone).
Proof.
  intros Hret. rewrite call_unfold.
  destruct (mapM_total
              (fun obj => if truthy obj then call_value obj a else Ok VNone) self)
    as [r Hr].
  { intros o Ho. destruct (truthy o) eqn:Eo; [now apply Hret|now exists VNone]. }
  exists r. rewrite Hr. split; [reflexivity|].
  split; [exact (mapM_length _ _ _ Hr)|].
  intros i obj Hi.
  destruct (mapM_nth _ _ _ Hr i obj Hi) as [ri [Hri Hcall]].
  exists ri. split; [exact Hri|]. split; intros Ht; rewrite Ht in Hcall.
  - exact Hcall.
  - now injection Hcall.
Qed.

(** ** Chained broadcast *)

(** C8, as the code has it.  For names [b] and [c] that are broadcast, when
    no lookup of [b] on an element and no lookup of [c] on a value of
    [self.b] raises anything but AttributeError, [self.b.c] returns the
    broadcast of [c] over the collection that the broadcast of [b] returns,
    of the length of [self].  A position whose element lacks [b] holds
    [False] in [self.b]; in [self.b.c] it holds [False] again when the
    value [False] has no attribute [c]. *)
Theorem chain_broadcast (self : list value) (b c : string) :
  is_dunder b = false -> defined b = false ->
  is_dunder c = false -> defined c = false ->
  (forall obj, In obj self ->
     forall e, getattr_value obj b = Raise e -> e = AttributeError) ->
  (forall obj v, In obj self -> getattr_false b obj = Ok v ->
     forall e, getattr_value v c = Raise e -> e = AttributeError) ->
  exists bs cs,
    getattribute self b = Ok (VColl bs) /\
    getattribute bs c = Ok (VColl cs) /\
    chain self b c = Ok (VColl cs) /\
    List.length bs = List.length self /\
    List.length cs = List.length self /\
    (forall i v, nth_error bs i = Some v ->
       nth_error cs i =
         Some (match getattr_value v c with
               | Ok x => x
               | Raise _ => VBool false
               end)) /\
    (forall i obj, nth_error self i = Some obj ->
       getattr_value obj b = Raise AttributeError ->
       nth_error bs i = Some (VBool false) /\
       (builtin_attr (VBool false) c = None ->
        nth_error cs i = Some (VBool false))).
Proof.
  intros Hb Hdb Hc Hdc Hqb Hqc.
  destruct (mapM_total (getattr_false b) self) as [bs Hbs].
  { intros obj Hin. eexists. exact (getattr_false_quiet b obj (Hqb obj Hin)). }
  assert (Hqc' : forall v, In v bs ->
                   forall e, getattr_value v c = Raise e -> e = AttributeError).
  { intros v Hv. destruct (In_nth_error _ _ Hv) as [i Hi].
    assert (Hlen : i < List.length self).
    { rewrite <- (mapM_length _ _ _ Hbs). apply nth_error_Some. now rewrite Hi. }
    destruct (nth_error self i) as [obj|] eqn:Eo;
      [|apply nth_error_None in Eo; lia].
    destruct (mapM_nth _ _ _ Hbs i obj Eo) as [v' [Hv' Hf]].
    rewrite Hi in Hv'. injection Hv' as <-.
    exact (Hqc obj v (nth_error_In _ _ Eo) Hf). }
  destruct (mapM_total (getattr_false c) bs) as [cs Hcs].
  { intros v Hv. eexists. exact (getattr_false_quiet c v (Hqc' v Hv)). }
  assert (Eb : getattribute self b = Ok (VColl bs)).
  { rewrite (getattribute_plain self b Hb Hdb), Hbs. reflexivity. }
  assert (Ec : getattribute bs c = Ok (VColl cs)).
  { rewrite (getattribute_plain bs c Hc Hdc), Hcs. reflexivity. }
  assert (Pos : forall i v, nth_error bs i = Some v ->
                  nth_error cs i = Some (found_or_false (getattr_value v c))).
  { intros i v Hi. destruct (mapM_nth _ _ _ Hcs i v Hi) as [x [Hx Hf]].
    rewrite Hx. f_equal.
    rewrite (getattr_false_quiet c v (Hqc' v (nth_error_In _ _ Hi))) in Hf.
    now injection Hf as <-. }
  exists bs, cs. split; [exact Eb|]. split; [exact Ec|]. split.
  { unfold chain. rewrite Eb. cbn [bind]. unfold attr_access.
    rewrite getattr_value_coll. exact Ec. }
  split; [exact (mapM_length _ _ _ Hbs)|].
  split; [rewrite (mapM_length _ _ _ Hcs); exact (mapM_length _ _ _ Hbs)|].
  split; [exact Pos|].
  intros i obj Hi Hmiss.
  destruct (mapM_nth _ _ _ Hbs i obj Hi) as [v [Hv Hf]].
  unfold getattr_false in Hf. rewrite Hmiss in Hf. simpl in Hf.
  injection Hf as <-. split; [exact Hv|].
  intros Hnone. rewrite (Pos i (VBool false) Hv). simpl. now rewrite Hnone.
Qed.

(** ** Tree merge *)

Lemma tree_not_dunder : is_dunder "tree" = false.
Proof. reflexivity. Qed.

Lemma tree_not_defined : defined "tree" = false.
Proof. unfold defined. simpl. apply base_no_tree. Qed.

(** [self.tree()] first reads the attribute [tree] of every element, then
    calls the truthy ones; the merge runs over the results in order. *)
Lemma collection_tree_unfold (self : list value) :
  collection_tree self =
  (ms <- mapM (getattr_false "tree") self ;;
   ts <- mapM (call_or_none no_args) ms ;;
   foldM merge_trees (VDict []) ts).
Proof.
  unfold collection_tree.
  rewrite (getattribute_plain self "tree" tree_not_dunder tree_not_defined).
  destruct (mapM (getattr_false "tree") self) as [ms|e]; [|reflexivity].
  cbn [bind]. change (call_value (VColl ms) no_args)
    with (rs <- mapM (call_or_none no_args) ms ;; Ok (VColl rs)).
  destruct (mapM (call_or_none no_args) ms) as [ts|e]; reflexivity.
Qed.

Lemma tree_of_stages (obj t : value) :
  tree_of obj = Ok t ->
  exists m, getattr_false "tree" obj = Ok m /\ call_or_none no_args m = Ok t.
Proof.
  unfold tree_of. destruct (getattr_false "tree" obj) as [m|e]; [|discriminate].
  intros Ht. now exists m.
Qed.

(** When the attribute and the call of every element return, the merge runs
    over what [tree_of] gives. *)
Lemma trees_of (self ts : list value) :
  mapM tree_of self = Ok ts ->
  collection_tree self = foldM merge_trees (VDict []) ts.
Proof.
  intros Hts. rewrite collection_tree_unfold.
  assert (E : exists ms, mapM (getattr_false "tree") self = Ok ms /\
                         mapM (call_or_none no_args) ms = Ok ts).
  { revert ts Hts. induction self as [|x rest IH]; intros ts; simpl.
    - intros [= <-]. now exists [].
    - destruct (tree_of x) as [t|e] eqn:Ex; simpl; [|discriminate].
      destruct (mapM tree_of rest) as [ts'|e]; simpl; [|discriminate].
      intros [= <-]. destruct (tree_of_stages x t Ex) as [m [Hm Hc]].
      destruct (IH ts' eq_refl) as [ms [Hms Hcs]].
      exists (m :: ms). rewrite Hm, Hms. simpl. now rewrite Hc, Hcs. }
  destruct E as [ms [-> Hcs]]. cbn [bind]. now rewrite Hcs.
Qed.

Lemma merge_trees_unfold (target other : value) :
  merge_trees target other =
  if negb (truthy other)
  then Ok target
  else
    match other with
    | VDict items =>
        foldM (fun tgt kv =>
                 merge_entry (fun sub => merge_trees sub (snd kv)) tgt (fst kv) (snd kv))
              target items
    | _ =>
        m <- getattr_value other "items" ;;
        merge_duck target other m
    end.
Proof. destruct other; reflexivity. Qed.

Lemma merge_falsy (target other : value) :
  truthy other = false -> merge_trees target other = Ok target.
Proof. intros Hf. rewrite merge_trees_unfold, Hf. reflexivity. Qed.

Lemma merge_truthy_scalar (target other : value) :
  truthy other = true -> is_scalar other = true ->
  merge_trees target other = Raise AttributeError.
Proof.
  intros Ht Hs. rewrite merge_trees_unfold, Ht. simpl.
  destruct other; simpl in Hs; try discriminate; simpl;
    rewrite scalar_no_items; reflexivity.
Qed.

Lemma missing_tree_is_none (obj : value) :
  getattr_value obj "tree" = Raise AttributeError -> tree_of obj = Ok VNone.
Proof. intros Hm. unfold tree_of, getattr_false. now rewrite Hm. Qed.

(** An element whose entry is falsy can be left out of the collection. *)
Lemma falsy_entry_skipped (pre post : list value) (obj t : value) :
  tree_of obj = Ok t -> truthy t = false ->
  collection_tree (pre ++ obj :: post) = collection_tree (pre ++ post).
Proof.
  intros Ho Hf. destruct (tree_of_stages obj t Ho) as [m [Hm Hc]].
  rewrite !collection_tree_unfold.
  rewrite (mapM_insert _ pre post obj m Hm), mapM_app.
  destruct (mapM (getattr_false "tree") pre) as [ms1|e]; simpl; [|reflexivity].
  destruct (mapM (getattr_false "tree") post) as [ms2|e]; simpl; [|reflexivity].
  rewrite (mapM_insert _ ms1 ms2 m t Hc), mapM_app.
  destruct (mapM (call_or_none no_args) ms1) as [ts1|e]; simpl; [|reflexivity].
  destruct (mapM (call_or_none no_args) ms2) as [ts2|e]; simpl; [|reflexivity].
  rewrite !foldM_app.
  destruct (foldM merge_trees (VDict []) ts1) as [acc|e]; simpl; [|reflexivity].
  now rewrite (merge_falsy acc t Hf).
Qed.

(** C9.  A per-element tree value that is falsy ([None], [False], an empty
    mapping; also the [None] that stands for an element without [tree]) is
    skipped by the merge: the accumulator stays as it is, no error is
    raised, and the result of [collection_tree] is that of the collection
    without the element. *)
Theorem falsy_tree_skipped (pre post : list value) (obj t : value) :
  tree_of obj = Ok t ->
  truthy t = false ->
  (forall acc, merge_trees acc t = Ok acc) /\
  collection_tree (pre ++ obj :: post) = collection_tree (pre ++ post) /\
  (forall o, getattr_value o "tree" = Raise AttributeError ->
     tree_of o = Ok VNone /\ truthy VNone = false) /\
  truthy (VBool false) = false /\ truthy (VDict []) = false.
Proof.
  intros Ho Hf. split; [intros acc; now apply merge_falsy|].
  split; [now apply (falsy_entry_skipped pre post obj t)|].
  split; [|split; reflexivity].
  intros o Hm. split; [now apply missing_tree_is_none|reflexivity].
Qed.

(** C2, as the code has it.  An element that has no attribute [tree] does
    not make [collection_tree] fail: its entry is [None], which the merge
    skips, and the result is that of the collection without the element. *)
Theorem missing_tree_skipped (pre post : list value) (obj : value) :
  getattr_value obj "tree" = Raise AttributeError ->
  tree_of obj = Ok VNone /\
  collection_tree (pre ++ obj :: post) = collection_tree (pre ++ post).
Proof.
  intros Hm. pose proof (missing_tree_is_none obj Hm) as Ho.
  split; [exact Ho|].
  now apply (falsy_entry_skipped pre post obj VNone).
Qed.

Lemma assoc_app_absent {A : Type} (k k' : string) (v : A) (kvs : list (string * A)) :
  assoc k' (kvs ++ [(k, v)]) =
  match assoc k' kvs with
  | Some x => Some x
  | None => if String.eqb k' k then Some v else None
  end.
Proof.
  induction kvs as [|[k0 v0] rest IH]; simpl; [reflexivity|].
  destruct (String.eqb k' k0); [reflexivity|exact IH].
Qed.

Lemma assoc_set_other {A : Type} (k k' : string) (v : A) (kvs : list (string * A)) :
  String.eqb k' k = false ->
  assoc k' (assoc_set k v kvs) = assoc k' kvs.
Proof.
  intros Hne. induction kvs as [|[k0 v0] rest IH]; simpl; [reflexivity|].
  destruct (String.eqb k k0) eqn:E0; simpl.
  - apply String.eqb_eq in E0. subst k0. now rewrite Hne.
  - destruct (String.eqb k' k0); [reflexivity|exact IH].
Qed.

Lemma assoc_set_same {A : Type} (k : string) (v : A) (kvs : list (string * A)) :
  assoc k kvs = Some v -> assoc_set k v kvs = kvs.
Proof.
  induction kvs as [|[k0 v0] rest IH]; simpl; [reflexivity|].
  destruct (String.eqb k k0) eqn:E0.
  - intros [= ->]. reflexivity.
  - intros Hr. now rewrite IH.
Qed.

Lemma assoc_set_found {A : Type} (k : string) (v v0 : A) (kvs : list (string * A)) :
  assoc k kvs = Some v0 -> assoc k (assoc_set k v kvs) = Some v.
Proof.
  induction kvs as [|[k1 v1] rest IH]; simpl; [discriminate|].
  destruct (String.eqb k k1) eqn:E; simpl; rewrite E; [reflexivity|exact IH].
Qed.

Lemma assoc_not_key {A : Type} (k : string) (kvs : list (string * A)) :
  ~ In k (keys kvs) -> assoc k kvs = None.
Proof.
  induction kvs as [|[k0 v0] rest IH]; simpl; [reflexivity|].
  intros Hn. destruct (String.eqb k k0) eqn:E0.
  - apply String.eqb_eq in E0. subst k0. exfalso. apply Hn. now left.
  - apply IH. intros Hin. apply Hn. now right.
Qed.


Lemma merge_dict (target : value) (items : list (string * value)) :
  merge_trees target (VDict items) = merge_items target items.
Proof.
  rewrite merge_trees_unfold. destruct items; reflexivity.
Qed.

Lemma merge_items_cons (target : value) (k : string) (v : value)
  (rest : list (string * value)) :
  merge_items target ((k, v) :: rest) =
  (tgt <- merge_entry (fun sub => merge_trees sub v) target k v ;;
   merge_items tgt rest).
Proof. reflexivity. Qed.

Lemma merge_items_app (target : value) (xs ys : list (string * value)) :
  merge_items target (xs ++ ys) =
  (tgt <- merge_items target xs ;; merge_items tgt ys).
Proof. unfold merge_items. apply foldM_app. Qed.


(** A key of the accumulator is still a key after the merge. *)
Lemma merge_items_present (inc t : list (string * value)) (k : string)
  (v : value) (r : value) :
  assoc k t = Some v ->
  merge_items (VDict t) inc = Ok r ->
  exists rs v', r = VDict rs /\ assoc k rs = Some v'.
Proof.
  revert t v r. induction inc as [|[k0 v0] rest IH]; intros t v r Hk.
  - simpl. intros [= <-]. now exists t, v.
  - rewrite merge_items_cons. unfold merge_entry.
    destruct (assoc k0 t) as [sub|] eqn:Ek0.
    + destruct (merge_trees sub v0) as [sub'|e]; simpl; [|discriminate].
      destruct (String.eqb k k0) eqn:E.
      * apply String.eqb_eq in E. subst k0.
        apply (IH _ sub'). now apply (assoc_set_found k sub' sub).
      * apply (IH _ v). now rewrite (assoc_set_other k0 k sub' t E).
    + simpl. apply (IH _ v). now rewrite assoc_app_absent, Hk.
Qed.


(** Onto [None], a boolean, a number or a string only a falsy value can be
    merged, and it leaves the value as it is. *)
Lemma merge_onto_scalar (sub v r : value) :
  is_scalar sub = true -> is_tree v = true ->
  merge_trees sub v = Ok r -> r = sub /\ truthy v = false.
Proof.
  intros Hs Ht. rewrite merge_trees_unfold.
  destruct (truthy v) eqn:Etr; simpl; [|now intros [= <-]].
  destruct v as [| | | |items| | |]; simpl in Ht; try discriminate;
    try (simpl; rewrite scalar_no_items by reflexivity; discriminate).
  destruct items as [|[k x] rest]; [discriminate|].
  cbn [foldM fst snd]. unfold merge_entry.
  destruct sub; simpl in Hs; try discriminate; simpl; discriminate.
Qed.

(** A key that holds [None], a boolean, a number or a string holds the same
    value after a merge of trees that succeeds. *)
Lemma scalar_leaf_kept (inc t : list (string * value)) (k : string)
  (v r : value) :
  assoc k t = Some v ->
  is_scalar v = true ->
  forallb (fun kv => is_tree (snd kv)) inc = true ->
  merge_items (VDict t) inc = Ok r ->
  exists rs, r = VDict rs /\ assoc k rs = Some v.
Proof.
  revert t r. induction inc as [|[k0 v0] rest IH]; intros t r Hk Hs Ht.
  - simpl. intros [= <-]. now exists t.
  - simpl in Ht. apply andb_true_iff in Ht. destruct Ht as [Ht0 Htr].
    rewrite merge_items_cons. unfold merge_entry.
    destruct (assoc k0 t) as [sub|] eqn:Ek0.
    + destruct (merge_trees sub v0) as [sub'|e] eqn:Em; simpl; [|discriminate].
      apply (IH (assoc_set k0 sub' t) r); [|exact Hs|exact Htr].
      destruct (String.eqb k k0) eqn:E.
      * apply String.eqb_eq in E. subst k0.
        rewrite Hk in Ek0. injection Ek0 as <-.
        destruct (merge_onto_scalar v v0 sub' Hs Ht0 Em) as [-> _].
        now apply (assoc_set_found k v v t).
      * now rewrite (assoc_set_other k0 k sub' t E).
    + simpl. apply (IH (t ++ [(k0, v0)]) r); [|exact Hs|exact Htr].
      rewrite assoc_app_absent, Hk. reflexivity.
Qed.

Lemma same_key_falsy (t before after : list (string * value)) (k : string)
  (v1 v2 : value) :
  assoc k t = Some v1 -> truthy v2 = false ->
  merge_trees (VDict t) (VDict (before ++ (k, v2) :: after)) =
  merge_trees (VDict t) (VDict (before ++ after)).
Proof.
  intros Hk Hf. rewrite !merge_dict, !merge_items_app.
  destruct (merge_items (VDict t) before) as [tb|e] eqn:Eb; [|reflexivity].
  destruct (merge_items_present before t k v1 tb Hk Eb) as [rs [v' [-> Hv']]].
  cbn [bind]. rewrite merge_items_cons. unfold merge_entry.
  rewrite Hv', (merge_falsy v' v2 Hf). cbn [bind].
  now rewrite (assoc_set_same k v' rs Hv').
Qed.

Lemma same_key_truthy_scalar (t before after : list (string * value))
  (k : string) (v1 v2 tb : value) :
  assoc k t = Some v1 -> truthy v2 = true -> is_scalar v2 = true ->
  merge_trees (VDict t) (VDict before) = Ok tb ->
  merge_trees (VDict t) (VDict (before ++ (k, v2) :: after)) =
  Raise AttributeError.
Proof.
  intros Hk Ht Hs Hb. rewrite merge_dict in Hb.
  rewrite merge_dict, merge_items_app, Hb.
  destruct (merge_items_present before t k v1 tb Hk Hb) as [rs [v' [-> Hv']]].
  cbn [bind]. rewrite merge_items_cons. unfold merge_entry.
  now rewrite Hv', (merge_truthy_scalar v' v2 Ht Hs).
Qed.

(** C3, as the code has it.  When the accumulator already holds a value
    under a key (the first one seen) and a later tree supplies a second
    value under that key, whatever other entries the two have: a falsy
    second value is ignored, the merge going on as if the entry were not
    there; a truthy number, boolean or string is asked for [items] and the
    merge, and with it [collection_tree], raises AttributeError once the
    entries before it are merged.  When the first value is [None], a
    boolean, a number or a string and the merge of a tree returns, the
    first value is still there and the second one was falsy. *)
Theorem same_key_second_value :
  (forall t before after k v1 v2,
     assoc k t = Some v1 ->
     (truthy v2 = false ->
      merge_trees (VDict t) (VDict (before ++ (k, v2) :: after)) =
      merge_trees (VDict t) (VDict (before ++ after))) /\
     (truthy v2 = true -> is_scalar v2 = true ->
      forall tb, merge_trees (VDict t) (VDict before) = Ok tb ->
      merge_trees (VDict t) (VDict (before ++ (k, v2) :: after)) =
      Raise AttributeError) /\
     (is_scalar v1 = true ->
      is_tree (VDict (before ++ (k, v2) :: after)) = true ->
      forall r,
        merge_trees (VDict t) (VDict (before ++ (k, v2) :: after)) = Ok r ->
        exists rs, r = VDict rs /\ assoc k rs = Some v1 /\ truthy v2 = false))
  /\
  (forall pre post obj ts ts2 t before after k v1 v2,
     mapM tree_of pre = Ok ts ->
     foldM merge_trees (VDict []) ts = Ok (VDict t) ->
     assoc k t = Some v1 ->
     tree_of obj = Ok (VDict (before ++ (k, v2) :: after)) ->
     mapM tree_of post = Ok ts2 ->
     (truthy v2 = false ->
      collection_tree (pre ++ obj :: post) =
      foldM merge_trees (VDict t) (VDict (before ++ after) :: ts2)) /\
     (truthy v2 = true -> is_scalar v2 = true ->
      forall tb, merge_trees (VDict t) (VDict before) = Ok tb ->
      collection_tree (pre ++ obj :: post) = Raise AttributeError)).
Proof.
  split.
  - intros t before after k v1 v2 Hk. split; [|split].
    + now apply (same_key_falsy t before after k v1 v2).
    + intros Ht Hs tb. now apply (same_key_truthy_scalar t before after k v1 v2).
    + intros Hs Htree r. rewrite merge_dict, merge_items_app.
      simpl in Htree. rewrite forallb_app in Htree.
      apply andb_true_iff in Htree. destruct Htree as [Hbefore Hrest].
      simpl in Hrest. apply andb_true_iff in Hrest. destruct Hrest as [Hv2 Hafter].
      destruct (merge_items (VDict t) before) as [tb|e] eqn:Eb; [|discriminate].
      destruct (scalar_leaf_kept before t k v1 tb Hk Hs Hbefore Eb)
        as [rb [-> Hrb]].
      cbn [bind]. rewrite merge_items_cons. unfold merge_entry. rewrite Hrb.
      destruct (merge_trees v1 v2) as [s'|e] eqn:Em; [|discriminate].
      destruct (merge_onto_scalar v1 v2 s' Hs Hv2 Em) as [-> Hfalsy].
      cbn [bind]. rewrite (assoc_set_same k v1 rb Hrb). intros Hr.
      destruct (scalar_leaf_kept after rb k v1 r Hrb Hs Hafter Hr) as [rs [-> Hrs]].
      now exists rs.
  - intros pre post obj ts ts2 t before after k v1 v2 Hpre Hacc Hk Hobj Hpost.
    assert (E : collection_tree (pre ++ obj :: post) =
                (acc <- merge_trees (VDict t)
                          (VDict (before ++ (k, v2) :: after)) ;;
                 foldM merge_trees acc ts2)).
    { rewrite (trees_of (pre ++ obj :: post)
                 (ts ++ VDict (before ++ (k, v2) :: after) :: ts2)).
      - rewrite foldM_app, Hacc. reflexivity.
      - rewrite (mapM_insert tree_of pre post obj _ Hobj), Hpre, Hpost.
        reflexivity. }
    split.
    + intros Hf. rewrite E, (same_key_falsy t before after k v1 v2 Hk Hf).
      reflexivity.
    + intros Ht Hs tb Hb.
      now rewrite E, (same_key_truthy_scalar t before after k v1 v2 tb Hk Ht Hs Hb).
Qed.



Lemma distinct_NoDup (names : list string) :
  distinct names = true -> NoDup names.
Proof.
  induction names as [|k rest IH]; simpl; [constructor|].
  intros Hd. apply andb_true_iff in Hd. destruct Hd as [Hk Hd].
  constructor; [|now apply IH].
  intros Hin. apply negb_true_iff in Hk.
  apply not_true_iff_false in Hk. apply Hk. unfold mem. apply existsb_exists.
  exists k. split; [exact Hin|apply String.eqb_refl].
Qed.




Lemma merge_items_fresh (inc t : list (string * value)) :
  NoDup (keys inc) ->
  (forall k, In k (keys inc) -> assoc k t = None) ->
  merge_items (VDict t) inc = Ok (VDict (t ++ inc)).
Proof.
  revert t. induction inc as [|[k v] rest IH]; intros t Hnd Hfresh.
  - simpl. now rewrite app_nil_r.
  - inversion Hnd as [|? ? Hnotin Hnd']; subst.
    rewrite merge_items_cons. unfold merge_entry.
    rewrite (Hfresh k (or_introl eq_refl)). cbn [bind].
    rewrite (IH (t ++ [(k, v)]) Hnd').
    + now rewrite <- app_assoc.
    + intros k' Hk'. rewrite assoc_app_absent.
      rewrite (Hfresh k' (or_intror Hk')).
      destruct (String.eqb k' k) eqn:E; [|reflexivity].
      apply String.eqb_eq in E. subst k'. contradiction.
Qed.


End Properties.

(** * Concrete runs on [DemoHost] *)

Example cows_b :
  getattribute Demo.cows "b" =
  Ok (VColl [VStr "cow"; VBool false; VStr "supercows"]).
Proof. reflexivity. Qed.

Example cows_d :
  getattribute Demo.cows "d" = Ok (VColl [VBool false; VBool false; VBool false]).
Proof. reflexivity. Qed.

Example cows_apply :
  apply Demo.cows (fun x => getattr_false "c" x) =
  Ok (VColl [VInt 1; VInt 3; VInt 6]).
Proof. reflexivity. Qed.

(** The end of the class docstring: a collection of two strings, and the
    method broadcast [oc.capitalize()]. *)
Example cheese_capitalize :
  method_call [VStr "cheeze"; VStr "mozarella"] "capitalize" no_args =
  Ok (VColl [VStr "Cheeze"; VStr "Mozarella"]).
Proof. reflexivity. Qed.

Lemma getattr_broadcast_witness :
  is_dunder "b" = false /\ defined "b" = false /\
  (forall obj, In obj Demo.cows ->
     forall e, getattr_value obj "b" = Raise e -> e = AttributeError) /\
  exists r,
    getattribute Demo.cows "b" = Ok (VColl r) /\
    List.length r = List.length Demo.cows /\
    forall i obj, nth_error Demo.cows i = Some obj ->
      nth_error r i =
        Some (match getattr_value obj "b" with
              | Ok v => v
              | Raise _ => VBool false
              end).
Proof.
  assert (Hq : forall obj, In obj Demo.cows ->
                 forall e, getattr_value obj "b" = Raise e -> e = AttributeError).
  { intros obj [<-|[<-|[<-|[]]]] e He; vm_compute in He; congruence. }
  split; [reflexivity|]. split; [reflexivity|]. split; [exact Hq|].
  apply (getattr_broadcast Demo.cows "b"); [reflexivity|reflexivity|exact Hq].
Defined.

(** C1 fails as stated: [getattr(obj, name, False)] replaces AttributeError
    only.  The second element has a property [x] whose getter raises another
    exception, and the access raises it instead of returning a collection. *)
Lemma getattr_property_raises :
  is_dunder "x" = false /\ defined "x" = false /\
  getattr_value (Demo.with_property "x" (HostError 0)) "x" = Raise (HostError 0) /\
  getattribute [Demo.data [("x", VInt 1)]; Demo.with_property "x" (HostError 0)] "x" =
    Raise (HostError 0).
Proof. repeat split; reflexivity. Qed.

Lemma dunder_raises_witness :
  is_dunder "__bool__" = true /\ defined "__bool__" = false /\
  getattribute Demo.cows "__bool__" = Raise AttributeError.
Proof.
  split; [reflexivity|]. split; [reflexivity|].
  apply (dunder_raises Demo.cows "__bool__"); reflexivity.
Defined.

Lemma call_broadcast_witness :
  (forall obj, In obj Demo.callables -> truthy obj = true ->
     exists v, call_value obj no_args = Ok v) /\
  exists r,
    __call__ Demo.callables no_args = Ok (VColl r) /\
    List.length r = List.length Demo.callables /\
    forall i obj, nth_error Demo.callables i = Some obj ->
      exists ri,
        nth_error r i = Some ri /\
        (truthy obj = true -> call_value obj no_args = Ok ri) /\
        (truthy obj = false -> ri = VNone).
Proof.
  assert (Hret : forall obj, In obj Demo.callables -> truthy obj = true ->
                   exists v, call_value obj no_args = Ok v).
  { intros obj [<-|[<-|[<-|[]]]] Ht.
    - exists (VStr "Cheeze"). reflexivity.
    - discriminate Ht.
    - exists (VDict [("a", VInt 1)]). reflexivity. }
  split; [exact Hret|].
  apply (call_broadcast Demo.callables no_args Hret).
Defined.

Example callables_called :
  __call__ Demo.callables no_args =
  Ok (VColl [VStr "Cheeze"; VNone; VDict [("a", VInt 1)]]).
Proof. reflexivity. Qed.

(** C5 fails as stated: the number 5 is truthy and not callable, and
    calling the collection that holds it raises TypeError instead of
    returning a collection. *)
Lemma call_on_number_raises :
  truthy (VInt 5) = true /\
  __call__ [VInt 5] no_args = Raise TypeError.
Proof. split; reflexivity. Qed.

(** [filter(lambda x: getattr(x, 'b', False))] and then
    [filter(lambda x: x.b)] on the cows. *)
Lemma filter_exact_and_composes_witness :
  (forall obj, In obj Demo.cows -> exists v, getattr_false "b" obj = Ok v) /\
  exists kept,
    filter Demo.cows (getattr_false "b") = Ok (VColl kept) /\
    kept = List.filter (passes (getattr_false "b")) Demo.cows /\
    (forall obj, In obj kept <->
       In obj Demo.cows /\
       exists v, getattr_false "b" obj = Ok v /\ truthy v = true) /\
    subseq kept Demo.cows /\
    filter kept (fun x => attr_access x "b") =
    filter Demo.cows (both (getattr_false "b") (fun x => attr_access x "b")).
Proof.
  assert (Hret : forall obj, In obj Demo.cows ->
                   exists v, getattr_false "b" obj = Ok v).
  { intros obj [<-|[<-|[<-|[]]]]; eexists; reflexivity. }
  split; [exact Hret|].
  apply (filter_exact_and_composes Demo.cows (getattr_false "b")
           (fun x => attr_access x "b") Hret).
Defined.

Example cows_filtered :
  filter Demo.cows (getattr_false "b") =
  Ok (VColl [ Demo.data [("a", VStr "good"); ("b", VStr "cow"); ("c", VInt 1)];
              Demo.data [("a", VStr "ugly"); ("b", VStr "supercows");
                         ("c", VInt 6)] ]).
Proof. reflexivity. Qed.

(** C7 fails as stated: a test can raise.  With [p = lambda x: x.b] the
    filter raises AttributeError on the second cow and returns no
    collection, so [filter(p)] followed by [filter(q)] raises AttributeError
    for any [q]; the single filter by [lambda x: p(x) and q(x)], with
    [q = lambda x: x()], raises TypeError on the first cow. *)
Lemma filter_raising_tests :
  filter Demo.cows (fun x => attr_access x "b") = Raise AttributeError /\
  filter Demo.cows
    (both (fun x => attr_access x "b") (fun x => call_value x no_args)) =
    Raise TypeError.
Proof. split; reflexivity. Qed.

Lemma chain_broadcast_witness :
  (forall obj, In obj Demo.nested ->
     forall e, getattr_value obj "b" = Raise e -> e = AttributeError) /\
  (forall obj v, In obj Demo.nested -> getattr_false "b" obj = Ok v ->
     forall e, getattr_value v "c" = Raise e -> e = AttributeError) /\
  exists bs cs,
    getattribute Demo.nested "b" = Ok (VColl bs) /\
    getattribute bs "c" = Ok (VColl cs) /\
    chain Demo.nested "b" "c" = Ok (VColl cs) /\
    List.length bs = List.length Demo.nested /\
    List.length cs = List.length Demo.nested /\
    (forall i v, nth_error bs i = Some v ->
       nth_error cs i =
         Some (match getattr_value v "c" with
               | Ok x => x
               | Raise _ => VBool false
               end)) /\
    (forall i obj, nth_error Demo.nested i = Some obj ->
       getattr_value obj "b" = Raise AttributeError ->
       nth_error bs i = Some (VBool false) /\
       (builtin_attr (VBool false) "c" = None ->
        nth_error cs i = Some (VBool false))).
Proof.
  assert (Hb : forall obj, In obj Demo.nested ->
                 forall e, getattr_value obj "b" = Raise e -> e = AttributeError).
  { intros obj [<-|[<-|[<-|[]]]] e He; vm_compute in He; congruence. }
  assert (Hc : forall obj v, In obj Demo.nested -> getattr_false "b" obj = Ok v ->
                 forall e, getattr_value v "c" = Raise e -> e = AttributeError).
  { intros obj v [<-|[<-|[<-|[]]]] Hv e He; vm_compute in Hv;
      injection Hv as <-; vm_compute in He; congruence. }
  split; [exact Hb|]. split; [exact Hc|].
  apply (chain_broadcast Demo.nested "b" "c");
    [reflexivity|reflexivity|reflexivity|reflexivity|exact Hb|exact Hc].
Defined.

Example nested_b_c :
  chain Demo.nested "b" "c" = Ok (VColl [VInt 7; VBool false; VBool false]).
Proof. reflexivity. Qed.

(** C8 fails as stated: the sentinel [False] is a value with attributes of
    its own.  The second element lacks [b], so [self.b] holds [False] at its
    position; [self.b.denominator] then holds [False.denominator], which
    is 1, at that position. *)
Lemma chain_reads_sentinel_attribute :
  getattr_value (Demo.data []) "b" = Raise AttributeError /\
  getattribute Demo.nested "b" =
    Ok (VColl [Demo.data [("c", VInt 7)]; VBool false; Demo.data []]) /\
  chain Demo.nested "b" "denominator" =
    Ok (VColl [VBool false; VInt 1; VBool false]).
Proof. repeat split; reflexivity. Qed.

(** An element without [tree] between two elements with one. *)
Lemma falsy_tree_skipped_witness :
  tree_of (Demo.data []) = Ok VNone /\ truthy VNone = false /\
  (forall acc, merge_trees acc VNone = Ok acc) /\
  collection_tree ([Demo.with_tree 0] ++ Demo.data [] :: [Demo.with_tree 1]) =
    collection_tree ([Demo.with_tree 0] ++ [Demo.with_tree 1]) /\
  (forall o, getattr_value o "tree" = Raise AttributeError ->
     tree_of o = Ok VNone /\ truthy VNone = false) /\
  truthy (VBool false) = false /\ truthy (VDict []) = false.
Proof.
  split; [reflexivity|]. split; [reflexivity|].
  apply (falsy_tree_skipped [Demo.with_tree 0] [Demo.with_tree 1]
           (Demo.data []) VNone); reflexivity.
Defined.

Lemma missing_tree_skipped_witness :
  getattr_value (Demo.data []) "tree" = Raise AttributeError /\
  tree_of (Demo.data []) = Ok VNone /\
  collection_tree ([Demo.with_tree 0] ++ Demo.data [] :: [Demo.with_tree 1]) =
    collection_tree ([Demo.with_tree 0] ++ [Demo.with_tree 1]).
Proof.
  split; [reflexivity|].
  apply (missing_tree_skipped [Demo.with_tree 0] [Demo.with_tree 1]
           (Demo.data [])); reflexivity.
Defined.

(** C2 fails as stated: the only element has no [tree], and
    [collection_tree] returns the empty mapping without raising. *)
Lemma missing_tree_no_error :
  getattr_value (Demo.data []) "tree" = Raise AttributeError /\
  collection_tree [Demo.data []] = Ok (VDict []).
Proof. split; reflexivity. Qed.

(** The trees [{"a": 1}] and [{"b": 5, "a": 2}]: the entry [b] is merged,
    then the second value of [a] raises. *)
Lemma same_key_second_value_witness :
  let host := table_host [ VDict [("a", VInt 1)];
                           VDict [("b", VInt 5); ("a", VInt 2)] ] in
  (truthy (VInt 2) = false ->
   @collection_tree host ([Demo.with_tree 0] ++ Demo.with_tree 1 :: []) =
   foldM (@merge_trees host) (VDict [("a", VInt 1)])
         [VDict ([("b", VInt 5)] ++ [])]) /\
  (truthy (VInt 2) = true -> is_scalar (VInt 2) = true ->
   forall tb,
     @merge_trees host (VDict [("a", VInt 1)]) (VDict [("b", VInt 5)]) = Ok tb ->
     @collection_tree host ([Demo.with_tree 0] ++ Demo.with_tree 1 :: []) =
     Raise AttributeError).
Proof.
  intros host.
  apply (proj2 (@same_key_second_value host)
           [Demo.with_tree 0] [] (Demo.with_tree 1)
           [VDict [("a", VInt 1)]] [] [("a", VInt 1)]
           [("b", VInt 5)] [] "a" (VInt 1) (VInt 2)); reflexivity.
Defined.

Example first_value_kept_when_second_falsy :
  collection_tree [Demo.with_tree 2; Demo.with_tree 4] =
  Ok (VDict [("a", VInt 1)]).
Proof. reflexivity. Qed.

Example second_value_after_other_entries :
  let host := table_host [ VDict [("a", VInt 1)];
                           VDict [("b", VInt 5); ("a", VInt 2)] ] in
  @collection_tree host [Demo.with_tree 0; Demo.with_tree 1] =
  Raise AttributeError.
Proof. reflexivity. Qed.

(** C3 fails as stated: for the trees [{"a": 1}] and [{"a": 2}] the merge
    reaches [__merge_trees(1, 2)], where [2] is truthy and has no [items],
    and [collection_tree] raises AttributeError. *)
Lemma same_key_example_raises :
  tree_of (Demo.with_tree 2) = Ok (VDict [("a", VInt 1)]) /\
  tree_of (Demo.with_tree 3) = Ok (VDict [("a", VInt 2)]) /\
  collection_tree [Demo.with_tree 2; Demo.with_tree 3] = Raise AttributeError.
Proof. repeat split; reflexivity. Qed.


Example two_keys_merged :
  merge_trees
    (VDict [("a", VDict [("p", VInt 1)]); ("b", VDict [("q", VInt 2)])])
    (VDict [("a", VDict [("x", VInt 1)]); ("b", VDict [("y", VInt 2)])]) =
  Ok (VDict [("a", VDict [("p", VInt 1); ("x", VInt 1)]);
             ("b", VDict [("q", VInt 2); ("y", VInt 2)])]).
Proof. reflexivity. Qed.

Example nested_example :
  collection_tree [Demo.with_tree 0; Demo.with_tree 1] =
  Ok (VDict [("a", VDict [("b", VInt 1); ("c", VInt 2)])]).
Proof. reflexivity. Qed.

(** * Further properties of the class *)

Section Coverage.

Context {H : Host}.

(** ** Attribute access and calls *)

Lemma mapM_ok {A B : Type} (f : A -> result B) (g : A -> B) (xs : list A) :
  (forall x, In x xs -> f x = Ok (g x)) ->
  mapM f xs = Ok (map g xs).
Proof.
  induction xs as [|x rest IH]; intros Hf; simpl.
  - reflexivity.
  - rewrite (Hf x (or_introl eq_refl)). simpl.
    rewrite IH by (intros y Hy; apply Hf; now right).
    reflexivity.
Qed.

(** X1.  A missing attribute never makes the access raise, and
    AttributeError never leaves an access with a name that is not of the
    form [__x__]: what the access raises is what the lookup on one of the
    elements raised.  The other exceptions are not caught: the exception of
    the first element whose lookup raises one is the outcome. *)
Theorem lookup_error_propagates
  (pre post : list value) (obj : value) (name : string) (e : exn) :
  is_dunder name = false ->
  defined name = false ->
  (forall o, In o pre ->
     forall e', getattr_value o name = Raise e' -> e' = AttributeError) ->
  getattr_value obj name = Raise e ->
  e <> AttributeError ->
  getattribute (pre ++ obj :: post) name = Raise e /\
  (forall self e',
     getattribute self name = Raise e' ->
     e' <> AttributeError /\
     exists o, In o self /\ getattr_value o name = Raise e').
Proof.
  intros Hn Hd Hpre He Hne. split.
  - rewrite (getattribute_plain _ name Hn Hd).
    rewrite (mapM_raise (getattr_false name) pre post obj e); [reflexivity| |].
    + intros o Ho. eexists. exact (getattr_false_quiet name o (Hpre o Ho)).
    + unfold getattr_false, or_default. rewrite He.
      destruct e; [contradiction| |]; reflexivity.
  - intros self e'. rewrite (getattribute_plain self name Hn Hd).
    destruct (mapM (getattr_false name) self) as [rs|e''] eqn:Em; [discriminate|].
    intros [= ->]. destruct (mapM_raised _ _ _ Em) as [o [Ho Hf]]. split.
    + intros ->. exact (getattr_false_not_attribute_error name o Hf).
    + exists o. split; [exact Ho|now apply getattr_false_raise].
Qed.

Lemma method_call_unfold (self : list value) (name : string) (a : args) :
  is_dunder name = false -> defined name = false ->
  method_call self name a =
  (ms <- mapM (getattr_false name) self ;;
   rs <- mapM (call_or_none a) ms ;;
   Ok (VColl rs)).
Proof.
  intros Hn Hd. unfold method_call.
  rewrite (getattribute_plain self name Hn Hd).
  destruct (mapM (getattr_false name) self) as [ms|e]; reflexivity.
Qed.

(** X2.  The method broadcast [self.name(...)], for a name that is
    broadcast: when the lookups return or raise AttributeError and the calls
    of the methods that are present return, the result is a collection of
    the same length whose position [i] holds what the method of element [i]
    returned, and [None] (not [False]) where the element has no such
    attribute. *)
Theorem method_broadcast (self : list value) (name : string) (a : args) :
  is_dunder name = false ->
  defined name = false ->
  (forall obj, In obj self ->
     forall e, getattr_value obj name = Raise e -> e = AttributeError) ->
  (forall obj m, In obj self -> getattr_value obj name = Ok m ->
     truthy m = true -> exists v, call_value m a = Ok v) ->
  exists r,
    method_call self name a = Ok (VColl r) /\
    List.length r = List.length self /\
    forall i obj, nth_error self i = Some obj ->
      exists ri,
        nth_error r i = Some ri /\
        (getattr_value obj name = Raise AttributeError -> ri = VNone) /\
        (forall m, getattr_value obj name = Ok m -> truthy m = true ->
           call_value m a = Ok ri) /\
        (forall m, getattr_value obj name = Ok m -> truthy m = false ->
           ri = VNone).
Proof.
  intros Hn Hd Hq Hret. rewrite (method_call_unfold self name a Hn Hd).
  rewrite (mapM_ok (getattr_false name)
             (fun obj => found_or_false (getattr_value obj name)) self)
    by (intros obj Hin; exact (getattr_false_quiet name obj (Hq obj Hin))).
  cbn [bind]. rewrite mapM_map.
  set (f := fun obj => call_or_none a (found_or_false (getattr_value obj name))).
  destruct (mapM_total f self) as [r Hr].
  { intros obj Hin. unfold f, call_or_none.
    destruct (getattr_value obj name) as [m|e] eqn:Em; simpl.
    - destruct (truthy m) eqn:Et; [now apply (Hret obj m)|now exists VNone].
    - now exists VNone. }
  exists r. rewrite Hr. split; [reflexivity|].
  split; [exact (mapM_length _ _ _ Hr)|].
  intros i obj Hi.
  destruct (mapM_nth _ _ _ Hr i obj Hi) as [ri [Hri Hf]].
  exists ri. split; [exact Hri|]. unfold f, call_or_none in Hf.
  split; [|split].
  - intros Em. rewrite Em in Hf. simpl in Hf. now injection Hf.
  - intros m Em Et. rewrite Em in Hf. simpl in Hf. now rewrite Et in Hf.
  - intros m Em Et. rewrite Em in Hf. simpl in Hf. rewrite Et in Hf.
    now injection Hf.
Qed.

(** X3.  Calling a collection whose elements are all falsy calls nothing
    and cannot raise: the result holds [None] at every position, also when
    the elements are not callable. *)
Theorem call_all_falsy (self : list value) (a : args) :
  (forall obj, In obj self -> truthy obj = false) ->
  __call__ self a = Ok (VColl (map (fun _ => VNone) self)).
Proof.
  intros Hf. rewrite call_unfold.
  rewrite (mapM_ok _ (fun _ => VNone) self); [reflexivity|].
  intros obj Hin. now rewrite (Hf obj Hin).
Qed.

Lemma not_callable_raises (obj : value) (a : args) :
  not_callable obj = true -> call_value obj a = Raise TypeError.
Proof.
  destruct obj as [| | | | |attrs [c|]| |]; simpl; try discriminate; reflexivity.
Qed.

(** X4.  A truthy element that is not callable (a non-zero number, a
    non-empty string or dict, an object without code) makes the call of the
    collection raise TypeError, whatever follows it, when the calls before
    it return. *)
Theorem call_not_callable (pre post : list value) (obj : value) (a : args) :
  (forall o, In o pre -> truthy o = true -> exists v, call_value o a = Ok v) ->
  truthy obj = true ->
  not_callable obj = true ->
  __call__ (pre ++ obj :: post) a = Raise TypeError.
Proof.
  intros Hpre Ht Hnc.
  apply (call_propagates pre post obj a TypeError Hpre Ht).
  now apply not_callable_raises.
Qed.

(** X5.  An element that is itself an ObjectCollection has every name that
    is broadcast: at its position the result holds the collection that the
    broadcast over the inner collection returns, of the length of the inner
    collection and never the sentinel [False], also when the inner
    collection is empty. *)
Theorem nested_collection_broadcast
  (self inner : list value) (name : string) (i : nat) :
  is_dunder name = false ->
  defined name = false ->
  (forall obj, In obj self ->
     forall e, getattr_value obj name = Raise e -> e = AttributeError) ->
  nth_error self i = Some (VColl inner) ->
  exists r ri,
    getattribute self name = Ok (VColl r) /\
    getattribute inner name = Ok (VColl ri) /\
    nth_error r i = Some (VColl ri) /\
    List.length ri = List.length inner.
Proof.
  intros Hn Hd Hq Hi.
  destruct (mapM_total (getattr_false name) self) as [r Hr].
  { intros obj Hin. eexists. exact (getattr_false_quiet name obj (Hq obj Hin)). }
  assert (Hinner : exists ri, mapM (getattr_false name) inner = Ok ri).
  { destruct (mapM (getattr_false name) inner) as [ri|e] eqn:Em; [now exists ri|].
    exfalso.
    assert (Hraise : getattr_value (VColl inner) name = Raise e).
    { rewrite getattr_value_coll, (getattribute_plain inner name Hn Hd), Em.
      reflexivity. }
    pose proof (Hq _ (nth_error_In _ _ Hi) e Hraise) as ->.
    destruct (mapM_raised _ _ _ Em) as [o [_ Hf]].
    exact (getattr_false_not_attribute_error name o Hf). }
  destruct Hinner as [ri Hri].
  assert (Ei : getattribute inner name = Ok (VColl ri)).
  { now rewrite (getattribute_plain inner name Hn Hd), Hri. }
  exists r, ri. split; [|split; [exact Ei|split]].
  - now rewrite (getattribute_plain self name Hn Hd), Hr.
  - destruct (mapM_nth _ _ _ Hr i _ Hi) as [x [Hx Hf]].
    unfold getattr_false in Hf. rewrite getattr_value_coll, Ei in Hf.
    simpl in Hf. now injection Hf as <-.
  - exact (mapM_length _ _ _ Hri).
Qed.

(** ** [filter] and [apply] *)

Lemma filterM_raise {A : Type} (f : A -> result bool) (pre post : list A)
  (x : A) (e : exn) :
  (forall z, In z pre -> exists b, f z = Ok b) ->
  f x = Raise e ->
  filterM f (pre ++ x :: post) = Raise e.
Proof.
  intros Hpre Hx. induction pre as [|z pre IH]; simpl.
  - now rewrite Hx.
  - destruct (Hpre z (or_introl eq_refl)) as [b ->]. simpl.
    rewrite IH by (intros w Hw; apply Hpre; now right). reflexivity.
Qed.

Lemma apply_total (self : list value) (f : value -> value) :
  apply self (total f) = Ok (VColl (map f self)).
Proof.
  unfold apply, total. now rewrite (mapM_pure f self).
Qed.

(** X6.  [apply(function)], when the function returns on every element,
    returns a new collection of the same length whose position [i] holds
    the function's result on element [i]. *)
Theorem apply_elementwise (self : list value) (function : value -> result value) :
  (forall obj, In obj self -> exists v, function obj = Ok v) ->
  exists r,
    apply self function = Ok (VColl r) /\
    List.length r = List.length self /\
    forall i obj, nth_error self i = Some obj ->
      exists ri, nth_error r i = Some ri /\ function obj = Ok ri.
Proof.
  intros Hret. unfold apply.
  destruct (mapM_total function self Hret) as [r Hr].
  exists r. rewrite Hr. split; [reflexivity|].
  split; [exact (mapM_length _ _ _ Hr)|].
  intros i obj Hi. exact (mapM_nth _ _ _ Hr i obj Hi).
Qed.

(** X7.  [apply] does not catch anything: the exception of the first
    element on which the function raises is the outcome, and no collection
    is returned. *)
Theorem apply_propagates
  (pre post : list value) (obj : value) (function : value -> result value)
  (e : exn) :
  (forall o, In o pre -> exists v, function o = Ok v) ->
  function obj = Raise e ->
  apply (pre ++ obj :: post) function = Raise e.
Proof.
  intros Hpre He. unfold apply.
  now rewrite (mapM_raise function pre post obj e Hpre He).
Qed.

(** X8.  [filter] does not catch anything either: the exception of the
    first element on which the test raises is the outcome. *)
Theorem filter_propagates
  (pre post : list value) (obj : value)
  (filter_function : value -> result value) (e : exn) :
  (forall o, In o pre -> exists v, filter_function o = Ok v) ->
  filter_function obj = Raise e ->
  filter (pre ++ obj :: post) filter_function = Raise e.
Proof.
  intros Hpre He. unfold filter.
  rewrite (filterM_raise _ pre post obj e); [reflexivity| |now rewrite He].
  intros o Ho. destruct (Hpre o Ho) as [v ->]. simpl. now eexists.
Qed.

(** X9.  Applying [f] and then [g] is applying [lambda x: g(f(x))] once,
    for an [f] that returns: [apply(f)] returns the collection of the
    results of [f], and applying [g] to it gives what the single [apply]
    gives; [g] may raise, and then both sides raise the same exception. *)
Theorem apply_composes
  (self : list value) (f : value -> value) (g : value -> result value) :
  exists r,
    apply self (total f) = Ok (VColl r) /\
    r = map f self /\
    apply r g = apply self (fun x => g (f x)).
Proof.
  exists (map f self). split; [apply apply_total|]. split; [reflexivity|].
  unfold apply. now rewrite mapM_map.
Qed.

Lemma filter_map {A B : Type} (f : A -> B) (t : B -> bool) (xs : list A) :
  List.filter t (map f xs) = map f (List.filter (fun x => t (f x)) xs).
Proof.
  induction xs as [|x rest IH]; simpl; [reflexivity|].
  destruct (t (f x)); simpl; now rewrite IH.
Qed.

(** X10.  Filtering the results of [apply(f)] by [p] keeps the results of
    the elements that [lambda x: p(f(x))] keeps: [apply(f).filter(p)] and
    [filter(lambda x: p(f(x))).apply(f)] return the same collection. *)
Theorem filter_after_apply (self : list value) (f p : value -> value) :
  exists applied kept,
    apply self (total f) = Ok (VColl applied) /\
    applied = map f self /\
    filter self (total (fun x => p (f x))) = Ok (VColl kept) /\
    kept = List.filter (fun x => truthy (p (f x))) self /\
    filter applied (total p) = Ok (VColl (map f kept)) /\
    apply kept (total f) = Ok (VColl (map f kept)).
Proof.
  exists (map f self), (List.filter (fun x => truthy (p (f x))) self).
  split; [apply apply_total|]. split; [reflexivity|].
  split; [apply filter_total|]. split; [reflexivity|].
  split; [|apply apply_total].
  rewrite filter_total. do 2 f_equal.
  apply (filter_map f (fun y => truthy (p y))).
Qed.

(** X11.  Filtering twice by the same test changes nothing the second
    time, and the order of two filters does not matter; a filter never
    makes the collection longer. *)
Theorem filter_idempotent_commutes (self : list value) (p q : value -> value) :
  exists by_p by_q by_both,
    by_p = List.filter (fun x => truthy (p x)) self /\
    by_q = List.filter (fun x => truthy (q x)) self /\
    by_both = List.filter (fun x => truthy (p x) && truthy (q x)) self /\
    filter self (total p) = Ok (VColl by_p) /\
    filter self (total q) = Ok (VColl by_q) /\
    filter by_p (total p) = Ok (VColl by_p) /\
    filter by_p (total q) = Ok (VColl by_both) /\
    filter by_q (total p) = Ok (VColl by_both) /\
    List.length by_p <= List.length self.
Proof.
  exists (List.filter (fun x => truthy (p x)) self),
         (List.filter (fun x => truthy (q x)) self),
         (List.filter (fun x => truthy (p x) && truthy (q x)) self).
  split; [reflexivity|]. split; [reflexivity|]. split; [reflexivity|].
  split; [apply filter_total|]. split; [apply filter_total|].
  rewrite !filter_total. split; [|split; [|split]].
  - do 2 f_equal. induction self as [|x rest IH]; simpl; [reflexivity|].
    destruct (truthy (p x)) eqn:E; simpl; [rewrite E|]; now rewrite ?IH.
  - do 2 f_equal. induction self as [|x rest IH]; simpl; [reflexivity|].
    destruct (truthy (p x)) eqn:Ep; simpl; [|exact IH].
    destruct (truthy (q x)); now rewrite IH.
  - do 2 f_equal. induction self as [|x rest IH]; simpl; [reflexivity|].
    destruct (truthy (q x)) eqn:Eq; simpl.
    + rewrite andb_true_r. destruct (truthy (p x)); now rewrite IH.
    + rewrite andb_false_r. exact IH.
  - apply filter_length_le.
Qed.

(** ** The empty collection *)

(** X12.  On the empty collection every operation returns an empty result
    and nothing is called: attribute broadcast and the call give an empty
    collection, [filter] and [apply] give an empty collection even for a
    function that raises on every argument, and [collection_tree] gives the
    empty mapping. *)
Theorem empty_collection
  (name : string) (a : args) (f : value -> result value) :
  is_dunder name = false ->
  defined name = false ->
  getattribute [] name = Ok (ObjectCollection []) /\
  __call__ [] a = Ok (ObjectCollection []) /\
  method_call [] name a = Ok (ObjectCollection []) /\
  filter [] f = Ok (ObjectCollection []) /\
  apply [] f = Ok (ObjectCollection []) /\
  collection_tree [] = Ok (VDict []).
Proof.
  intros Hn Hd. repeat split.
  - now rewrite (getattribute_plain [] name Hn Hd).
  - now rewrite (method_call_unfold [] name a Hn Hd).
  - now rewrite collection_tree_unfold.
Qed.

(** ** Tree merge *)

Lemma keys_assoc_set {A : Type} (k : string) (v : A) (kvs : list (string * A)) :
  keys (assoc_set k v kvs) = keys kvs.
Proof.
  unfold keys. induction kvs as [|[k0 v0] rest IH]; simpl; [reflexivity|].
  destruct (String.eqb k k0); simpl; [reflexivity|now rewrite IH].
Qed.

Lemma assoc_mem {A : Type} (k : string) (kvs : list (string * A)) :
  mem k (keys kvs) = match assoc k kvs with Some _ => true | None => false end.
Proof.
  unfold mem, keys. induction kvs as [|[k0 v0] rest IH]; simpl; [reflexivity|].
  destruct (String.eqb k k0); simpl; [reflexivity|exact IH].
Qed.

(** X13.  Entries under keys that the accumulator does not have are
    inserted as they are, in their order, whatever their values: the tree of
    a single element is returned unchanged, and two elements whose trees
    have no key in common give the entries of the first followed by the
    entries of the second. *)
Theorem disjoint_trees_concatenate
  (e1 e2 : value) (items1 items2 : list (string * value)) :
  tree_of e1 = Ok (VDict items1) ->
  tree_of e2 = Ok (VDict items2) ->
  NoDup (keys items1) ->
  NoDup (keys items2) ->
  (forall k, In k (keys items2) -> ~ In k (keys items1)) ->
  collection_tree [e1] = Ok (VDict items1) /\
  collection_tree [e1; e2] = Ok (VDict (items1 ++ items2)).
Proof.
  intros H1 H2 Hnd1 Hnd2 Hdisj.
  assert (M1 : merge_trees (VDict []) (VDict items1) = Ok (VDict items1)).
  { rewrite merge_dict. now apply (merge_items_fresh items1 []). }
  assert (M2 : merge_trees (VDict items1) (VDict items2) =
               Ok (VDict (items1 ++ items2))).
  { rewrite merge_dict. apply (merge_items_fresh items2 items1 Hnd2).
    intros k Hk. apply assoc_not_key. now apply Hdisj. }
  split.
  - rewrite (trees_of [e1] [VDict items1]) by (simpl; now rewrite H1).
    cbn [foldM]. now rewrite M1.
  - rewrite (trees_of [e1; e2] [VDict items1; VDict items2])
      by (simpl; now rewrite H1, H2).
    cbn [foldM]. rewrite M1. cbn [bind]. now rewrite M2.
Qed.

(** X14.  A merge that succeeds removes no key and moves none: the keys of
    the accumulator keep their places, and the incoming keys that were
    absent follow them in the order in which they come in. *)
Theorem merge_keeps_key_order (t inc : list (string * value)) (r : value) :
  NoDup (keys inc) ->
  merge_trees (VDict t) (VDict inc) = Ok r ->
  exists rs,
    r = VDict rs /\
    keys rs = keys t ++ List.filter (fun k => negb (mem k (keys t))) (keys inc).
Proof.
  rewrite merge_dict. revert t r.
  induction inc as [|[k v] rest IH]; intros t r Hnd.
  - simpl. intros [= <-]. exists t. split; [reflexivity|now rewrite app_nil_r].
  - inversion Hnd as [|? ? Hnotin Hnd']; subst.
    unfold merge_items. cbn [foldM fst snd]. unfold merge_entry.
    cbn [keys map fst List.filter]. fold (keys rest). rewrite (assoc_mem k t).
    destruct (assoc k t) as [sub|] eqn:Ek; cbn [negb].
    + destruct (merge_trees sub v) as [sub'|e]; simpl; [|discriminate].
      intros Hr. destruct (IH (assoc_set k sub' t) r Hnd' Hr) as [rs [-> Hkeys]].
      exists rs. split; [reflexivity|]. now rewrite keys_assoc_set in Hkeys.
    + simpl. intros Hr.
      destruct (IH (t ++ [(k, v)]) r Hnd' Hr) as [rs [-> Hkeys]].
      exists rs. split; [reflexivity|]. rewrite Hkeys.
      unfold keys at 1. rewrite map_app. simpl. fold (keys t).
      rewrite <- app_assoc. simpl. do 2 f_equal.
      apply filter_ext_in. intros k' Hk'. f_equal.
      unfold keys. rewrite map_app. simpl. unfold mem.
      rewrite existsb_app. simpl. rewrite orb_false_r.
      destruct (String.eqb k' k) eqn:E; [|now rewrite orb_false_r].
      apply String.eqb_eq in E. subst k'. contradiction.
Qed.

(** X15.  First value wins: when trees are merged and the merge succeeds,
    a key of the accumulator that holds [None], a boolean, a number or a
    string holds the same value afterwards. *)
Theorem scalar_leaf_never_overwritten
  (t inc : list (string * value)) (k : string) (v r : value) :
  assoc k t = Some v ->
  is_scalar v = true ->
  is_tree (VDict inc) = true ->
  merge_trees (VDict t) (VDict inc) = Ok r ->
  exists rs, r = VDict rs /\ assoc k rs = Some v.
Proof.
  intros Hk Hs Ht. rewrite merge_dict.
  now apply (scalar_leaf_kept inc t k v r Hk Hs).
Qed.

(** X16.  A non-empty mapping that comes in under a key whose value is not
    a mapping cannot be merged: [key not in target] or the item access on
    the old value fails, and the merge raises TypeError. *)
Theorem mapping_onto_leaf_raises
  (e1 e2 : value) (t inc : list (string * value)) (k : string) (v1 : value) :
  assoc k t = Some v1 ->
  (forall items, v1 <> VDict items) ->
  inc <> [] ->
  tree_of e1 = Ok (VDict [(k, v1)]) ->
  tree_of e2 = Ok (VDict [(k, VDict inc)]) ->
  merge_trees (VDict t) (VDict [(k, VDict inc)]) = Raise TypeError /\
  collection_tree [e1; e2] = Raise TypeError.
Proof.
  intros Hk Hnd Hinc H1 H2.
  assert (M : merge_trees v1 (VDict inc) = Raise TypeError).
  { rewrite merge_dict. destruct inc as [|[k0 v0] rest]; [contradiction|].
    unfold merge_items. cbn [foldM fst snd]. unfold merge_entry.
    destruct v1; try reflexivity. exfalso. now apply (Hnd items). }
  assert (G : forall t', assoc k t' = Some v1 ->
                merge_trees (VDict t') (VDict [(k, VDict inc)]) = Raise TypeError).
  { intros t' Hk'. rewrite merge_dict. unfold merge_items.
    cbn [foldM fst snd]. unfold merge_entry. rewrite Hk', M. reflexivity. }
  split; [now apply G|].
  rewrite (trees_of [e1; e2] [VDict [(k, v1)]; VDict [(k, VDict inc)]])
    by (simpl; now rewrite H1, H2).
  cbn [foldM]. rewrite merge_dict. unfold merge_items.
  cbn [foldM fst snd]. unfold merge_entry. cbn [assoc bind app].
  rewrite G; [reflexivity|]. simpl. now rewrite String.eqb_refl.
Qed.

Lemma tree_of_not_callable (obj m : value) :
  getattr_value obj "tree" = Ok m ->
  truthy m = true -> not_callable m = true ->
  tree_of obj = Raise TypeError.
Proof.
  intros Hm Ht Hnc. unfold tree_of, getattr_false. rewrite Hm. simpl.
  rewrite Ht. now apply not_callable_raises.
Qed.

(** The two loops of [self.tree()]: when the first returns on every
    element, the exception of the first element on which the second raises
    is the outcome. *)
Lemma two_loops_raise {A B C : Type} (f : A -> result B) (g : B -> result C)
  (pre post : list A) (x : A) (e : exn) :
  (forall z, In z (pre ++ x :: post) -> exists y, f z = Ok y) ->
  (forall z, In z pre -> exists c, (y <- f z ;; g y) = Ok c) ->
  (y <- f x ;; g y) = Raise e ->
  (ms <- mapM f (pre ++ x :: post) ;; mapM g ms) = Raise e.
Proof.
  intros Hf Hpre Hx. induction pre as [|z pre IH].
  - simpl in *. destruct (Hf x (or_introl eq_refl)) as [y Hy].
    rewrite Hy in Hx |- *. cbn [bind] in Hx |- *.
    destruct (mapM_total f post) as [ms ->];
      [intros w Hw; apply Hf; now right|].
    cbn [bind mapM]. now rewrite Hx.
  - simpl. destruct (Hf z (or_introl eq_refl)) as [y Hy].
    destruct (Hpre z (or_introl eq_refl)) as [c Hc].
    rewrite Hy in Hc |- *. cbn [bind] in Hc |- *.
    assert (IH' := IH (fun w Hw => Hf w (or_intror Hw))
                      (fun w Hw => Hpre w (or_intror Hw))).
    destruct (mapM f (pre ++ x :: post)) as [ms|e']; cbn [bind] in IH' |- *.
    + cbn [mapM]. rewrite Hc. cbn [bind]. now rewrite IH'.
    + exact IH'.
Qed.

(** X17.  [self.tree()] is evaluated completely before the first merge:
    when the [tree] attribute of every element can be read, an exception
    raised by the [tree()] of an element is the outcome of
    [collection_tree], whatever the trees of the elements before it are.  In
    particular a truthy [tree] attribute that is not callable gives
    TypeError. *)
Theorem tree_call_error_first
  (pre post : list value) (obj : value) (e : exn) :
  (forall o, In o (pre ++ obj :: post) ->
     exists m, getattr_false "tree" o = Ok m) ->
  (forall o, In o pre -> exists t, tree_of o = Ok t) ->
  tree_of obj = Raise e ->
  collection_tree (pre ++ obj :: post) = Raise e /\
  (forall m, getattr_value obj "tree" = Ok m ->
     truthy m = true -> not_callable m = true -> e = TypeError).
Proof.
  intros Hread Hpre He. split.
  - rewrite collection_tree_unfold.
    pose proof (two_loops_raise (getattr_false "tree") (call_or_none no_args)
                  pre post obj e Hread Hpre He) as Hraise.
    destruct (mapM (getattr_false "tree") (pre ++ obj :: post)) as [ms|e'];
      cbn [bind] in Hraise |- *;
      [now rewrite Hraise|now injection Hraise as ->].
  - intros m Hm Ht Hnc.
    rewrite (tree_of_not_callable obj m Hm Ht Hnc) in He. now injection He.
Qed.

(** X18.  When the entry of every element is falsy (no [tree] attribute, a
    falsy one, or a [tree()] that returns [None] or an empty mapping) the
    result is the empty mapping. *)
Theorem all_falsy_gives_empty_tree (self : list value) :
  (forall o, In o self -> exists t, tree_of o = Ok t /\ truthy t = false) ->
  collection_tree self = Ok (VDict []).
Proof.
  intros Hall.
  assert (E : exists ts, mapM tree_of self = Ok ts /\
                         forall t, In t ts -> truthy t = false).
  { induction self as [|x rest IH]; simpl.
    - exists []. split; [reflexivity|intros t []].
    - destruct (Hall x (or_introl eq_refl)) as [t [-> Ht]]. simpl.
      destruct IH as [ts [-> Hts]]; [intros o Ho; apply Hall; now right|].
      simpl. exists (t :: ts). split; [reflexivity|].
      intros t' [<-|Hin]; [exact Ht|now apply Hts]. }
  destruct E as [ts [Hts Hfalsy]]. rewrite (trees_of self ts Hts).
  clear Hts. induction ts as [|t ts IH]; simpl; [reflexivity|].
  rewrite (merge_falsy (VDict []) t (Hfalsy t (or_introl eq_refl))). simpl.
  apply IH. intros t' Ht'. apply Hfalsy. now right.
Qed.

(** X19.  A [tree()] that returns a truthy number, boolean or string is
    not skipped: the merge asks it for [items], and [collection_tree]
    raises AttributeError when the merges before it succeeded and the
    [tree()] calls after it return. *)
Theorem scalar_tree_raises
  (pre post : list value) (obj t acc : value) (ts : list value) :
  mapM tree_of pre = Ok ts ->
  foldM merge_trees (VDict []) ts = Ok acc ->
  tree_of obj = Ok t ->
  truthy t = true ->
  is_scalar t = true ->
  (forall o, In o post -> exists t', tree_of o = Ok t') ->
  collection_tree (pre ++ obj :: post) = Raise AttributeError.
Proof.
  intros Hpre Hacc Ho Ht Hs Hpost.
  destruct (mapM_total tree_of post Hpost) as [ts2 Hts2].
  rewrite (trees_of (pre ++ obj :: post) (ts ++ t :: ts2))
    by (rewrite (mapM_insert tree_of pre post obj t Ho), Hpre, Hts2;
        reflexivity).
  rewrite foldM_app, Hacc. cbn [bind foldM].
  now rewrite (merge_truthy_scalar acc t Ht Hs).
Qed.

Lemma distinct_assoc (items : list (string * value)) (k : string) (v : value) :
  distinct (keys items) = true -> In (k, v) items -> assoc k items = Some v.
Proof.
  induction items as [|[k0 v0] rest IH]; simpl; [intros _ []|].
  intros Hd Hin. apply andb_true_iff in Hd. destruct Hd as [Hk0 Hd].
  destruct Hin as [[= -> ->]|Hin].
  - now rewrite String.eqb_refl.
  - destruct (String.eqb k k0) eqn:E; [|now apply IH].
    apply String.eqb_eq in E. subst k0. exfalso.
    apply negb_true_iff in Hk0. unfold mem in Hk0.
    apply not_true_iff_false in Hk0. apply Hk0. apply existsb_exists.
    exists k. split; [|apply String.eqb_refl].
    apply (in_map fst) in Hin. exact Hin.
Qed.

Lemma depth_entry (items : list (string * value)) (k : string) (v : value) :
  In (k, v) items -> depth v < depth (VDict items).
Proof.
  simpl. induction items as [|[k0 v0] rest IH]; simpl; [intros []|].
  intros [[= -> ->]|Hin]; [lia|]. specialize (IH Hin). lia.
Qed.

(** Merging a tree with falsy leaves into a target that already holds all
    of it changes nothing. *)
Lemma merge_same (n : nat) (v : value) :
  depth v <= n ->
  falsy_leaves v = true -> distinct_keys v = true ->
  merge_trees v v = Ok v.
Proof.
  revert v. induction n as [|n IH]; intros v Hdepth Hf Hd.
  - destruct v as [| | | |items| | |]; simpl in Hf; try discriminate;
      try (simpl in Hdepth; lia);
      apply merge_falsy; simpl; first [reflexivity | now apply negb_true_iff].
  - destruct v as [| | | |items| | |]; simpl in Hf; try discriminate;
      try (apply merge_falsy; simpl;
           first [reflexivity | now apply negb_true_iff]; fail).
    rewrite merge_dict. simpl in Hd. apply andb_true_iff in Hd.
    destruct Hd as [Hkeys Hsub].
    assert (G : forall suffix,
               (forall k x, In (k, x) suffix -> In (k, x) items) ->
               merge_items (VDict items) suffix = Ok (VDict items)).
    { induction suffix as [|[k x] rest IHs]; intros Hin; [reflexivity|].
      unfold merge_items. cbn [foldM fst snd]. unfold merge_entry.
      pose proof (Hin k x (or_introl eq_refl)) as Hkx.
      rewrite (distinct_assoc items k x Hkeys Hkx).
      rewrite (IH x).
      - cbn [bind]. rewrite (assoc_set_same k x items
                               (distinct_assoc items k x Hkeys Hkx)).
        apply IHs. intros k' x' H'. apply Hin. now right.
      - pose proof (depth_entry items k x Hkx). lia.
      - rewrite forallb_forall in Hf. exact (Hf (k, x) Hkx).
      - rewrite forallb_forall in Hsub. exact (Hsub (k, x) Hkx). }
    apply G. auto.
Qed.

(** X20.  Merging is idempotent on trees whose leaves are falsy: two
    elements with the same such tree give that tree, as one element does. *)
Theorem same_tree_twice (e1 e2 : value) (items : list (string * value)) :
  tree_of e1 = Ok (VDict items) ->
  tree_of e2 = Ok (VDict items) ->
  falsy_leaves (VDict items) = true ->
  distinct_keys (VDict items) = true ->
  collection_tree [e1] = Ok (VDict items) /\
  collection_tree [e1; e2] = Ok (VDict items).
Proof.
  intros H1 H2 Hf Hd.
  assert (M1 : merge_trees (VDict []) (VDict items) = Ok (VDict items)).
  { rewrite merge_dict. apply (merge_items_fresh items []); [|reflexivity].
    apply distinct_NoDup. simpl in Hd. now apply andb_true_iff in Hd. }
  pose proof (merge_same (depth (VDict items)) (VDict items) (le_n _) Hf Hd) as M2.
  split.
  - rewrite (trees_of [e1] [VDict items]) by (simpl; now rewrite H1).
    cbn [foldM]. now rewrite M1.
  - rewrite (trees_of [e1; e2] [VDict items; VDict items])
      by (simpl; now rewrite H1, H2).
    cbn [foldM]. rewrite M1. cbn [bind]. now rewrite M2.
Qed.

(** ** Reserved names *)

Lemma prefix_iff (p s : string) :
  String.prefix p s = true <-> exists r, s = (p ++ r)%string.
Proof.
  revert s. induction p as [|a p IH]; intros s.
  - split; [intros _; now exists s|intros _; now destruct s].
  - destruct s as [|b s]; simpl; [split; [discriminate|intros [r [=]]]|].
    destruct (ascii_dec a b) as [->|Hne].
    + rewrite IH. split; intros [r Hr]; exists r; [now rewrite Hr|now injection Hr].
    + split; [discriminate|]. intros [r [= Hab _]]. congruence.
Qed.

Lemma length_app (l s : string) :
  String.length (l ++ s) = String.length l + String.length s.
Proof. induction l as [|a l IH]; simpl; [reflexivity|now rewrite IH]. Qed.

Lemma substring_all (s : string) :
  String.substring 0 (String.length s) s = s.
Proof. induction s as [|a s IH]; simpl; [reflexivity|now rewrite IH]. Qed.

Lemma substring_skip (l s : string) (m : nat) :
  String.substring (String.length l) m (l ++ s) = String.substring 0 m s.
Proof. induction l as [|a l IH]; simpl; [reflexivity|exact IH]. Qed.

Lemma substring_split (s : string) (k : nat) :
  k <= String.length s ->
  s = (String.substring 0 k s ++
       String.substring k (String.length s - k) s)%string.
Proof.
  revert k. induction s as [|a s IH]; intros k Hk; simpl in *.
  - destruct k; [reflexivity|lia].
  - destruct k as [|k]; simpl.
    + now rewrite substring_all.
    + f_equal. apply IH. lia.
Qed.

Lemma endswith_iff (s suf : string) :
  endswith s suf = true <-> exists l, s = (l ++ suf)%string.
Proof.
  unfold endswith. split.
  - intros Hs. apply andb_true_iff in Hs. destruct Hs as [Hle Heq].
    apply Nat.leb_le in Hle. apply String.eqb_eq in Heq.
    remember (String.length suf) as m eqn:Em.
    exists (String.substring 0 (String.length s - m) s).
    rewrite <- Heq.
    pose proof (substring_split s (String.length s - m)) as Hsp.
    replace (String.length s - (String.length s - m)) with m in Hsp by lia.
    apply Hsp. lia.
  - intros [l ->]. rewrite length_app. apply andb_true_iff. split.
    + apply Nat.leb_le. lia.
    + replace (String.length l + String.length suf - String.length suf)
        with (String.length l) by lia.
      rewrite substring_skip, substring_all. apply String.eqb_refl.
Qed.

(** X21.  The names that [__getattr__] refuses are exactly those that have
    [__] both as a prefix and as a suffix; the two may overlap, so [__] and
    [___] are refused as well.  An access with a name [__m__] that normal
    lookup does not find raises AttributeError for every [m]. *)
Theorem refused_names (name : string) :
  (is_dunder name = true <->
   (exists r, name = ("__" ++ r)%string) /\
   (exists l, name = (l ++ "__")%string)) /\
  is_dunder "__" = true /\ is_dunder "___" = true /\
  (forall self m,
     name = ("__" ++ m ++ "__")%string ->
     defined name = false ->
     getattribute self name = Raise AttributeError).
Proof.
  assert (Iff : is_dunder name = true <->
                (exists r, name = ("__" ++ r)%string) /\
                (exists l, name = (l ++ "__")%string)).
  { unfold is_dunder, startswith. rewrite andb_true_iff.
    now rewrite prefix_iff, endswith_iff. }
  split; [exact Iff|]. split; [reflexivity|]. split; [reflexivity|].
  intros self m Hname Hd.
  rewrite (getattribute_undefined self name Hd).
  unfold __getattr__, getattr_with.
  assert (Hdu : is_dunder name = true).
  { apply Iff. split.
    - exists (m ++ "__")%string. exact Hname.
    - exists ("__" ++ m)%string. rewrite Hname. simpl. reflexivity. }
  now rewrite Hdu.
Qed.

(** X22.  The [tree] attributes of all the elements are read before the
    first [tree()] is called: an exception other than AttributeError raised
    by reading the attribute of an element is the outcome of
    [collection_tree], also when the [tree()] of an element before it would
    raise. *)
Theorem tree_lookup_error_first
  (pre post : list value) (obj : value) (e : exn) :
  (forall o, In o pre ->
     forall e', getattr_value o "tree" = Raise e' -> e' = AttributeError) ->
  getattr_value obj "tree" = Raise e ->
  e <> AttributeError ->
  collection_tree (pre ++ obj :: post) = Raise e.
Proof.
  intros Hpre He Hne. rewrite collection_tree_unfold.
  rewrite (mapM_raise (getattr_false "tree") pre post obj e); [reflexivity| |].
  - intros o Ho. eexists. exact (getattr_false_quiet "tree" o (Hpre o Ho)).
  - unfold getattr_false, or_default. rewrite He.
    destruct e; [contradiction| |]; reflexivity.
Qed.

End Coverage.

(** * Concrete runs for the further properties *)

(** The third element has a property [b] that raises. *)
Lemma lookup_error_propagates_witness :
  getattribute
    ([ Demo.data [("b", VStr "cow")]; Demo.data [] ] ++
     Demo.with_property "b" (HostError 0) :: [Demo.data []]) "b" =
    Raise (HostError 0) /\
  (forall self e',
     getattribute self "b" = Raise e' ->
     e' <> AttributeError /\
     exists o, In o self /\ getattr_value o "b" = Raise e').
Proof.
  apply (lookup_error_propagates
           [ Demo.data [("b", VStr "cow")]; Demo.data [] ] [Demo.data []]
           (Demo.with_property "b" (HostError 0)) "b" (HostError 0));
    try reflexivity; try discriminate.
  intros o [<-|[<-|[]]] e' He; vm_compute in He; congruence.
Defined.

Lemma method_broadcast_witness :
  exists r,
    method_call [Demo.with_tree 2; Demo.data []] "tree" no_args = Ok (VColl r) /\
    List.length r = 2 /\
    forall i obj, nth_error [Demo.with_tree 2; Demo.data []] i = Some obj ->
      exists ri,
        nth_error r i = Some ri /\
        (getattr_value obj "tree" = Raise AttributeError -> ri = VNone) /\
        (forall m, getattr_value obj "tree" = Ok m -> truthy m = true ->
           call_value m no_args = Ok ri) /\
        (forall m, getattr_value obj "tree" = Ok m -> truthy m = false ->
           ri = VNone).
Proof.
  apply (method_broadcast [Demo.with_tree 2; Demo.data []] "tree" no_args);
    try reflexivity.
  - intros obj [<-|[<-|[]]] e He; vm_compute in He; congruence.
  - intros obj m [<-|[<-|[]]] Hm Ht.
    + injection Hm as <-. exists (VDict [("a", VInt 1)]). reflexivity.
    + discriminate Hm.
Defined.

Example method_broadcast_run :
  method_call [Demo.with_tree 2; Demo.data []] "tree" no_args =
  Ok (VColl [VDict [("a", VInt 1)]; VNone]).
Proof. reflexivity. Qed.

Lemma call_all_falsy_witness :
  __call__ [VBool false; VInt 0; VNone; VStr ""] no_args =
  Ok (VColl [VNone; VNone; VNone; VNone]).
Proof.
  apply (call_all_falsy [VBool false; VInt 0; VNone; VStr ""] no_args).
  intros obj [<-|[<-|[<-|[<-|[]]]]]; reflexivity.
Defined.

Lemma call_not_callable_witness :
  __call__ [Demo.fn 5; VStr "cheeze"; Demo.fn 2] no_args = Raise TypeError.
Proof.
  apply (call_not_callable [Demo.fn 5] [Demo.fn 2] (VStr "cheeze") no_args);
    try reflexivity.
  intros o [<-|[]] _. exists (VStr "Cheeze"). reflexivity.
Defined.

Lemma nested_collection_broadcast_witness :
  exists r ri,
    getattribute [VColl []; VColl Demo.cows] "c" = Ok (VColl r) /\
    getattribute Demo.cows "c" = Ok (VColl ri) /\
    nth_error r 1 = Some (VColl ri) /\
    List.length ri = List.length Demo.cows.
Proof.
  apply (nested_collection_broadcast [VColl []; VColl Demo.cows] Demo.cows "c" 1);
    try reflexivity.
  intros obj [<-|[<-|[]]] e He; vm_compute in He; congruence.
Defined.

Example nested_collection_run :
  getattribute [VColl []; VColl Demo.cows] "c" =
  Ok (VColl [VColl []; VColl [VInt 1; VInt 3; VInt 6]]).
Proof. reflexivity. Qed.

Lemma apply_elementwise_witness :
  exists r,
    apply Demo.cows (fun x => attr_access x "c") = Ok (VColl r) /\
    List.length r = List.length Demo.cows /\
    forall i obj, nth_error Demo.cows i = Some obj ->
      exists ri, nth_error r i = Some ri /\ attr_access obj "c" = Ok ri.
Proof.
  apply (apply_elementwise Demo.cows (fun x => attr_access x "c")).
  intros obj [<-|[<-|[<-|[]]]]; eexists; reflexivity.
Defined.

(** [apply(lambda x: x.b)] on the cows: the second one has no [b]. *)
Lemma apply_propagates_witness :
  apply Demo.cows (fun x => attr_access x "b") = Raise AttributeError.
Proof.
  apply (apply_propagates
           [Demo.data [("a", VStr "good"); ("b", VStr "cow"); ("c", VInt 1)]]
           [Demo.data [("a", VStr "ugly"); ("b", VStr "supercows"); ("c", VInt 6)]]
           (Demo.data [("a", VStr "bad"); ("c", VInt 3)])
           (fun x => attr_access x "b") AttributeError).
  - intros o [<-|[]]. exists (VStr "cow"). reflexivity.
  - reflexivity.
Defined.

Lemma filter_propagates_witness :
  filter Demo.cows (fun x => attr_access x "b") = Raise AttributeError.
Proof.
  apply (filter_propagates
           [Demo.data [("a", VStr "good"); ("b", VStr "cow"); ("c", VInt 1)]]
           [Demo.data [("a", VStr "ugly"); ("b", VStr "supercows"); ("c", VInt 6)]]
           (Demo.data [("a", VStr "bad"); ("c", VInt 3)])
           (fun x => attr_access x "b") AttributeError).
  - intros o [<-|[]]. exists (VStr "cow"). reflexivity.
  - reflexivity.
Defined.

Lemma empty_collection_witness :
  getattribute [] "b" = Ok (ObjectCollection []) /\
  __call__ [] no_args = Ok (ObjectCollection []) /\
  method_call [] "b" no_args = Ok (ObjectCollection []) /\
  filter [] (fun _ => Raise TypeError) = Ok (ObjectCollection []) /\
  apply [] (fun _ => Raise TypeError) = Ok (ObjectCollection []) /\
  collection_tree [] = Ok (VDict []).
Proof.
  apply (empty_collection "b" no_args (fun _ => Raise TypeError)); reflexivity.
Defined.

(** Two trees without a common key, on a host whose callables return them. *)
Lemma disjoint_trees_concatenate_witness :
  let host := table_host [ VDict [("x", VInt 1); ("y", VDict [])];
                           VDict [("z", VStr "s")] ] in
  @collection_tree host [Demo.with_tree 0] =
    Ok (VDict [("x", VInt 1); ("y", VDict [])]) /\
  @collection_tree host [Demo.with_tree 0; Demo.with_tree 1] =
    Ok (VDict [("x", VInt 1); ("y", VDict []); ("z", VStr "s")]).
Proof.
  intros host.
  apply (@disjoint_trees_concatenate host
           (Demo.with_tree 0) (Demo.with_tree 1)
           [("x", VInt 1); ("y", VDict [])] [("z", VStr "s")]).
  - reflexivity.
  - reflexivity.
  - constructor; [intros [E|[]]; discriminate E|].
    constructor; [intros []|constructor].
  - constructor; [intros []|constructor].
  - intros k [<-|[]] [E|[E|[]]]; discriminate E.
Defined.

Lemma merge_keeps_key_order_witness :
  exists rs,
    VDict [("a", VInt 1); ("c", VNone); ("b", VInt 2)] = VDict rs /\
    keys rs =
      keys [("a", VInt 1); ("c", VNone)] ++
      List.filter (fun k => negb (mem k (keys [("a", VInt 1); ("c", VNone)])))
                  (keys [("b", VInt 2); ("a", VInt 0)]).
Proof.
  apply (merge_keeps_key_order
           [("a", VInt 1); ("c", VNone)] [("b", VInt 2); ("a", VInt 0)]).
  - constructor; [intros [E|[]]; discriminate E|].
    constructor; [intros []|constructor].
  - reflexivity.
Defined.

Lemma scalar_leaf_never_overwritten_witness :
  exists rs,
    VDict [("a", VInt 1); ("b", VInt 2)] = VDict rs /\
    assoc "a" rs = Some (VInt 1).
Proof.
  apply (scalar_leaf_never_overwritten
           [("a", VInt 1)] [("b", VInt 2); ("a", VInt 0)] "a" (VInt 1));
    reflexivity.
Defined.

Lemma mapping_onto_leaf_raises_witness :
  merge_trees (VDict [("a", VInt 1)]) (VDict [("a", VDict [("b", VInt 1)])]) =
    Raise TypeError /\
  collection_tree [Demo.with_tree 2; Demo.with_tree 0] = Raise TypeError.
Proof.
  apply (mapping_onto_leaf_raises (Demo.with_tree 2) (Demo.with_tree 0)
           [("a", VInt 1)] [("b", VInt 1)] "a" (VInt 1));
    try reflexivity; discriminate.
Defined.

(** The second element has a data attribute [tree], which is not callable. *)
Lemma tree_call_error_first_witness :
  collection_tree
    [Demo.with_tree 2; Demo.data [("tree", VDict [("a", VInt 1)])];
     Demo.with_tree 3] = Raise TypeError /\
  (forall m,
     getattr_value (Demo.data [("tree", VDict [("a", VInt 1)])]) "tree" = Ok m ->
     truthy m = true -> not_callable m = true -> TypeError = TypeError).
Proof.
  apply (tree_call_error_first
           [Demo.with_tree 2] [Demo.with_tree 3]
           (Demo.data [("tree", VDict [("a", VInt 1)])]) TypeError).
  - intros o [<-|[<-|[<-|[]]]]; eexists; reflexivity.
  - intros o [<-|[]]. eexists. reflexivity.
  - reflexivity.
Defined.

Lemma all_falsy_gives_empty_tree_witness :
  collection_tree [Demo.data []; Demo.data [("tree", VNone)]; VInt 0] =
  Ok (VDict []).
Proof.
  apply (all_falsy_gives_empty_tree
           [Demo.data []; Demo.data [("tree", VNone)]; VInt 0]).
  intros o [<-|[<-|[<-|[]]]]; exists VNone; split; reflexivity.
Defined.

(** The [tree()] of the second element returns the string ["Cheeze"]. *)
Lemma scalar_tree_raises_witness :
  collection_tree [Demo.with_tree 0; Demo.with_tree 5; Demo.with_tree 1] =
  Raise AttributeError.
Proof.
  apply (scalar_tree_raises
           [Demo.with_tree 0] [Demo.with_tree 1] (Demo.with_tree 5)
           (VStr "Cheeze") (VDict [("a", VDict [("b", VInt 1)])])
           [VDict [("a", VDict [("b", VInt 1)])]]);
    try reflexivity.
  intros o [<-|[]]. eexists. reflexivity.
Defined.

Lemma same_tree_twice_witness :
  collection_tree [Demo.with_tree 4] = Ok (VDict [("a", VInt 0)]) /\
  collection_tree [Demo.with_tree 4; Demo.with_tree 4] =
    Ok (VDict [("a", VInt 0)]).
Proof.
  apply (same_tree_twice (Demo.with_tree 4) (Demo.with_tree 4) [("a", VInt 0)]);
    reflexivity.
Defined.

(** The [tree] of the first element is the number 5, which is not callable;
    reading the [tree] of the second raises first. *)
Lemma tree_lookup_error_first_witness :
  tree_of (Demo.data [("tree", VInt 5)]) = Raise TypeError /\
  collection_tree
    ([Demo.data [("tree", VInt 5)]] ++
     Demo.with_property "tree" (HostError 7) :: [Demo.with_tree 0]) =
  Raise (HostError 7).
Proof.
  split; [reflexivity|].
  apply (tree_lookup_error_first
           [Demo.data [("tree", VInt 5)]] [Demo.with_tree 0]
           (Demo.with_property "tree" (HostError 7)) (HostError 7));
    try reflexivity; try discriminate.
  intros o [<-|[]] e' He; vm_compute in He; congruence.
Defined.
